(** * SlimMom backend: diary, daily summary and recommendations

    A shallow embedding of the request handlers of the SlimMom backend, the
    routers mounted at /api/diary (routes/diary.js), /api (routes/summery.js)
    and /api/products (routes/recommendations.js), and the properties of the
    specification that were checked against them.

    Conventions.
    - A JavaScript [Date] is its time value: milliseconds since the epoch,
      an integer ([Z]).  The process's local timezone is a constant offset
      [tza] in milliseconds (ECMAScript's LocalTZA, without daylight saving).
      A date parameter of a route is the time value of [new Date(param)];
      the date-only form "2024-09-12" parses to the UTC midnight of the day.
    - A JavaScript number is a rational ([Q]); IEEE rounding is not modelled.
    - An ObjectId is an abstract number; its [toString()] is its rendering as
      24 hexadecimal digits.
    - A handler is a function from the store (and what it reads from its
      environment: clock, timezone, generated ids) to a response and the new
      store; what its body throws is caught and answered 500.
    - The library calls are given the meaning their libraries document:
      the filters of [findOne] the one of MongoDB, [populate] and the
      [toString] of a populated reference the ones of Mongoose, [startOfDay]
      and [endOfDay] the ones of date-fns. *)

From Stdlib Require Import ZArith QArith Qabs Qround String Ascii List Lia Lqa ZifyBool Bool.
From Stdlib Require Import Sorted Permutation DecimalString OrdersEx.
From stdpp Require Import base list.

Local Open Scope Z_scope.

(** ** ECMAScript dates *)

Module JSDate.

Definition msPerDay : Z := 86400000.

(** ECMAScript [Day(t)] and [TimeWithinDay(t)]. *)
Definition Day (t : Z) : Z := t / msPerDay.
Definition TimeWithinDay (t : Z) : Z := t mod msPerDay.

(** ECMAScript [MakeTime(hour, min, sec, ms)]. *)
Definition MakeTime (h mi s ms : Z) : Z :=
  h * 3600000 + mi * 60000 + s * 1000 + ms.

(** The proleptic Gregorian calendar, by days since the epoch.  A civil date
    is (year, month, day) with month in 1..12.  The year is cut into eras of
    400 years (146097 days) that start on March 1st. *)
Definition daysPerEra : Z := 146097.

Definition yoe_of_doe (doe : Z) : Z :=
  (doe - doe / 1460 + doe / 36524 - doe / 146096) / 365.

Definition doy_of_doe (doe : Z) : Z :=
  let yoe := yoe_of_doe doe in
  doe - (365 * yoe + yoe / 4 - yoe / 100).

Definition mp_of_doy (doy : Z) : Z := (5 * doy + 2) / 153.

Definition civil_from_days (z : Z) : Z * Z * Z :=
  let z0 := z + 719468 in
  let era := z0 / daysPerEra in
  let doe := z0 mod daysPerEra in
  let yoe := yoe_of_doe doe in
  let doy := doy_of_doe doe in
  let mp := mp_of_doy doy in
  let d := doy - (153 * mp + 2) / 5 + 1 in
  let m := if mp <? 10 then mp + 3 else mp - 9 in
  let y := yoe + era * 400 in
  (if m <=? 2 then y + 1 else y, m, d).

Definition days_from_civil (y m d : Z) : Z :=
  let y' := if m <=? 2 then y - 1 else y in
  let era := y' / 400 in
  let yoe := y' mod 400 in
  let mp := if 2 <? m then m - 3 else m + 9 in
  let doy := (153 * mp + 2) / 5 + d - 1 in
  let doe := yoe * 365 + yoe / 4 - yoe / 100 + doy in
  era * daysPerEra + doe - 719468.

(** [YearFromTime], [MonthFromTime] (0-based) and [DateFromTime]. *)
Definition YearFromTime (t : Z) : Z := fst (fst (civil_from_days (Day t))).
Definition MonthFromTime (t : Z) : Z := snd (fst (civil_from_days (Day t))) - 1.
Definition DateFromTime (t : Z) : Z := snd (civil_from_days (Day t)).

(** ECMAScript [MakeDay(year, month, date)]: the month is 0-based and may
    overflow into the year, the date may overflow into the next months. *)
Definition MakeDay (year month date : Z) : Z :=
  let ym := year + month / 12 in
  let mn := month mod 12 in
  days_from_civil ym (mn + 1) 1 + date - 1.

(** [Date.UTC(year, month, date, hours, minutes, seconds, ms)].  A year in
    0..99 stands for 1900 + year. *)
Definition UTC (year month date h mi s ms : Z) : Z :=
  let yr := if (0 <=? year) && (year <=? 99) then 1900 + year else year in
  MakeDay yr month date * msPerDay + MakeTime h mi s ms.

(** [d.getUTCFullYear()], [d.getUTCMonth()], [d.getUTCDate()]. *)
Definition getUTCFullYear (t : Z) : Z := YearFromTime t.
Definition getUTCMonth (t : Z) : Z := MonthFromTime t.
Definition getUTCDate (t : Z) : Z := DateFromTime t.

(** [d.toISOString().split('T')[0]]: the date part "YYYY-MM-DD" of the UTC
    rendering.  The rendering has a fixed width for a given sign and range
    of the year, so one date part is a prefix of an ISO string exactly when
    the two UTC civil dates are equal: the date part is kept as the triple
    it prints. *)
Definition isoDatePart (t : Z) : Z * Z * Z := civil_from_days (Day t).

(** [LocalTime(t)] for a constant offset [tza]. *)
Definition LocalTime (tza t : Z) : Z := t + tza.

(** [d.toDateString()], as "Thu Sep 12 2024": the civil date (and its
    weekday) in the local timezone, kept as the triple it prints. *)
Definition toDateString (tza t : Z) : Z * Z * Z :=
  civil_from_days (Day (LocalTime tza t)).

(** date-fns [startOfDay(d)] is [d.setHours(0, 0, 0, 0)] and [endOfDay(d)]
    is [d.setHours(23, 59, 59, 999)], both in local time. *)
Definition setHours (tza t h mi s ms : Z) : Z :=
  Day (LocalTime tza t) * msPerDay + MakeTime h mi s ms - tza.
Definition startOfDay (tza t : Z) : Z := setHours tza t 0 0 0 0.
Definition endOfDay (tza t : Z) : Z := setHours tza t 23 59 59 999.

(** One era, checked day by day. *)
Definition era_day_ok (doe : Z) : bool :=
  let yoe := yoe_of_doe doe in
  let doy := doy_of_doe doe in
  let mp := mp_of_doy doy in
  let d := doy - (153 * mp + 2) / 5 + 1 in
  (0 <=? yoe) && (yoe <? 400) && (0 <=? mp) && (mp <? 12) &&
  (1 <=? d) && (d <=? 31) &&
  (yoe * 365 + yoe / 4 - yoe / 100 + ((153 * mp + 2) / 5 + d - 1) =? doe).

Fixpoint all_from (f : Z -> bool) (k : Z) (n : nat) : bool :=
  match n with
  | O => true
  | S n' => f k && all_from f (k + 1) n'
  end.

End JSDate.

(** ** Values *)

(** An ObjectId and its [toString()]: 24 hexadecimal digits. *)
Definition ObjectId : Type := N.

Definition hexDigit (n : N) : ascii :=
  match n with
  | 0 => "0" | 1 => "1" | 2 => "2" | 3 => "3" | 4 => "4" | 5 => "5"
  | 6 => "6" | 7 => "7" | 8 => "8" | 9 => "9" | 10 => "a" | 11 => "b"
  | 12 => "c" | 13 => "d" | 14 => "e" | _ => "f"
  end%N%char.

Fixpoint hexDigits (width : nat) (n : N) : string :=
  match width with
  | O => EmptyString
  | S w => String (hexDigit ((n / 16 ^ N.of_nat w) mod 16)%N) (hexDigits w n)
  end.

Definition oidToString (i : ObjectId) : string := hexDigits 24 i.

(** A callback or a handler body either completes with a value or throws;
    every handler catches what its body throws and answers 500. *)
Inductive Completion (A : Type) : Type :=
| Normal (a : A)
| Throw.
Arguments Normal {A} a.
Arguments Throw {A}.

(** [res.status(s).json(body)]: a success carries a body, a failure the
    message of the handler. *)
Inductive Response (A : Type) : Type :=
| Json (status : Z) (body : A)
| Message (status : Z) (message : string).
Arguments Json {A} status body.
Arguments Message {A} status message.

Definition status {A} (r : Response A) : Z :=
  match r with Json s _ => s | Message s _ => s end.

(** The error taxonomy of the specification, by HTTP status. *)
Definition InvalidInput {A} (r : Response A) : Prop := status r = 400.
Definition NotFound {A} (r : Response A) : Prop := status r = 404.
Definition Unexpected {A} (r : Response A) : Prop := status r = 500.

(** [!x] on a body field that is a number or absent, and on one that is a
    string or absent. *)
Definition falsyNum (x : option Q) : bool :=
  match x with None => true | Some q => Qeq_bool q 0 end.
Definition falsyStr (x : option string) : bool :=
  match x with None => true | Some s => String.eqb s EmptyString end.
Definition falsyId (x : option ObjectId) : bool :=
  match x with None => true | Some _ => false end.

(** [Array.prototype.findIndex]: the index of the first element the callback
    accepts, -1 when there is none. *)
Fixpoint findIndexFrom {A} (f : A -> bool) (l : list A) (i : Z) : Z :=
  match l with
  | [] => -1
  | x :: l' => if f x then i else findIndexFrom f l' (i + 1)
  end.
Definition findIndex {A} (f : A -> bool) (l : list A) : Z := findIndexFrom f l 0.

(** [findIndex] with a callback that may throw: the elements are visited in
    order and the first exception ends the search. *)
Fixpoint findIndexFromC {A} (f : A -> Completion bool) (l : list A) (i : Z)
  : Completion Z :=
  match l with
  | [] => Normal (-1)
  | x :: l' =>
      match f x with
      | Throw => Throw
      | Normal true => Normal i
      | Normal false => findIndexFromC f l' (i + 1)
      end
  end.
Definition findIndexC {A} (f : A -> Completion bool) (l : list A) : Completion Z :=
  findIndexFromC f l 0.

(** The array after [arr[index] = x] when [index > -1], and after
    [arr.push(x)] otherwise: the two branches every upsert of the routes
    takes on the result of [findIndex]. *)
Definition putAt {A} (index : Z) (x : A) (arr : list A) : list A :=
  if index >? -1 then <[Z.to_nat index := x]> arr else arr ++ [x].

(** [Array.prototype.some] with a callback that does not throw. *)
Definition some {A} (f : A -> bool) (l : list A) : bool := existsb f l.

(** [Array.prototype.reduce((acc, x) => acc + g(x), 0)]. *)
Definition sumBy {A} (g : A -> Q) (l : list A) : Q :=
  fold_left (fun acc x => acc + g x)%Q l 0%Q.

(** ** Documents and collections *)

Record Product := {
  product_id : ObjectId;
  title : string;
  calories : Q;
  groupBloodNotAllowed : list (option bool)
}.

Record DiaryEntry := {
  entry_id : ObjectId;
  productId : ObjectId;
  product_weight : Q;
  product_Calories : Q;
  date : Z
}.

Record Diary := {
  diary_id : ObjectId;
  diary_userId : ObjectId;
  entries : list DiaryEntry
}.

(** The result of [toFixed(2)]: a decimal numeral with two fraction digits,
    a sign and the digits read without the point. *)
Record Fixed2 := { negative : bool; hundredths : N }.

Record SummaryInfo := {
  diaryId : ObjectId;
  daily_left : Q;
  daily_consumed : Q;
  daily_rate : Q;
  percentage : Fixed2
}.

Record Summary := {
  summary_id : ObjectId;
  summary_userId : ObjectId;
  summaryInfo : list SummaryInfo
}.

Record Profile := {
  height : Q;
  age : Q;
  current_weight : Q;
  desired_weight : Q;
  blood_type : string
}.

Record Calculator := {
  calculator_id : ObjectId;
  calculator_userId : ObjectId;
  data : list Profile
}.

(** The database: one list of documents per collection, in insertion order. *)
Record Store := {
  Products : list Product;
  Diaries : list Diary;
  Summaries : list Summary;
  Calculators : list Calculator
}.

Definition setDiaries (ds : list Diary) (st : Store) : Store :=
  {| Products := Products st; Diaries := ds;
     Summaries := Summaries st; Calculators := Calculators st |}.
Definition setSummaries (ss : list Summary) (st : Store) : Store :=
  {| Products := Products st; Diaries := Diaries st;
     Summaries := ss; Calculators := Calculators st |}.
Definition setCalculators (cs : list Calculator) (st : Store) : Store :=
  {| Products := Products st; Diaries := Diaries st;
     Summaries := Summaries st; Calculators := cs |}.

(** [Model.findOne(filter)]: the first document of the collection that
    passes the filter. *)
Definition findOne {A} (f : A -> bool) (coll : list A) : option A := List.find f coll.

(** [doc.save()]: the document replaces the stored one with its [_id], or is
    inserted when the collection has none. *)
Fixpoint save {A} (id : A -> ObjectId) (doc : A) (coll : list A) : list A :=
  match coll with
  | [] => [doc]
  | x :: rest =>
      if N.eqb (id x) (id doc) then doc :: rest else x :: save id doc rest
  end.

(** [Product.findById(id)]. *)
Definition findById (id : ObjectId) (coll : list Product) : option Product :=
  findOne (fun p => N.eqb (product_id p) id) coll.

(** The filter [{ 'entries.date': { $gte: lo, $lte: hi } }] on a Diary.  The
    path runs through the array [entries], and the two operators are not
    under an [$elemMatch]: MongoDB tests each operator against the array on
    its own, so the document matches when some entry is dated at or after
    [lo] and some entry, the same or another, is dated at or before [hi]. *)
Definition entriesDateBetween (lo hi : Z) (d : Diary) : bool :=
  existsb (fun e => lo <=? date e) (entries d) &&
  existsb (fun e => date e <=? hi) (entries d).

(** [Diary.findOne({ userId })] and
    [Diary.findOne({ userId, 'entries.date': { $gte, $lte } })]. *)
Definition findDiary (user : ObjectId) (st : Store) : option Diary :=
  findOne (fun d => N.eqb (diary_userId d) user) (Diaries st).
Definition findDiaryBetween (user : ObjectId) (lo hi : Z) (st : Store)
  : option Diary :=
  findOne (fun d => N.eqb (diary_userId d) user && entriesDateBetween lo hi d)
          (Diaries st).

(** ** The diary routes (routes/diary.js) *)

Module DiaryRoutes.
Import JSDate.

(** What [populate({ path: 'entries.productId', select: 'title' })] puts in
    place of an entry's [productId]: the referenced product cut down to
    [_id] and [title], or [null] when the catalog has no such product.  (The
    documentation of [GET /consumed/:date] shows the [productId] of a listed
    entry as this product object.) *)
Record PopulatedProduct := { populated_id : ObjectId; populated_title : string }.

Definition populate (st : Store) (e : DiaryEntry) : option PopulatedProduct :=
  match findById (productId e) (Products st) with
  | Some p => Some {| populated_id := product_id p; populated_title := title p |}
  | None => None
  end.

(** [toString()] of a populated reference.  It is a Mongoose document, and
    [Document.prototype.toString] is the document's console rendering
    ([util.inspect] of its fields, which opens with a brace), not the string
    of its [_id]; the id of a populated reference is read as
    [entry.productId._id]. *)
Definition docToString (d : PopulatedProduct) : string :=
  ("{ _id: new ObjectId('" ++ oidToString (populated_id d)
     ++ "'), title: '" ++ populated_title d ++ "' }")%string.

(** The clock, as [POST /consumed] reads it: three [new Date()] for the
    fields of [today], then one for the entry's timestamp. *)
Record Clock := {
  readYear : Z;
  readMonth : Z;
  readDate : Z;
  readStamp : Z
}.

(** A handler that runs within one instant. *)
Definition instant (now : Z) : Clock :=
  {| readYear := now; readMonth := now; readDate := now; readStamp := now |}.

(** The [_id]s Mongoose generates for a new Diary and a new entry. *)
Record NewIds := { newDiaryId : ObjectId; newEntryId : ObjectId }.

Record ConsumedBody := {
  body_productId : option ObjectId;
  body_product_weight : option Q
}.

(** [const today = new Date(Date.UTC(new Date().getUTCFullYear(),
    new Date().getUTCMonth(), new Date().getUTCDate()))]. *)
Definition today (clk : Clock) : Z :=
  UTC (getUTCFullYear (readYear clk)) (getUTCMonth (readMonth clk))
      (getUTCDate (readDate clk)) 0 0 0 0.

(** The callback of [findIndex] in [POST /consumed]:
    [entry.productId.toString() === productId.toString() &&
     new Date(entry.date).toISOString().startsWith(today.toISOString().split('T')[0])].
    The entries were loaded populated; [toString] of [null] throws. *)
Definition sameProductToday (st : Store) (pid : ObjectId) (tod : Z)
           (entry : DiaryEntry) : Completion bool :=
  match populate st entry with
  | None => Throw
  | Some doc =>
      Normal (String.eqb (docToString doc) (oidToString pid) &&
              bool_decide (isoDatePart (date entry) = isoDatePart tod))
  end.

(** [let diaryEntry = await Diary.findOne({ userId })], and
    [new Diary({ userId, entries: [] })] when there is none. *)
Definition loadedDiary (ids : NewIds) (user : ObjectId) (st : Store) : Diary :=
  match findDiary user st with
  | Some d => d
  | None => {| diary_id := newDiaryId ids; diary_userId := user; entries := [] |}
  end.

(** [POST /consumed]. *)
Definition postConsumed (clk : Clock) (ids : NewIds) (user : ObjectId)
           (body : ConsumedBody) (st : Store) : Response Diary * Store :=
  if falsyId (body_productId body) || falsyNum (body_product_weight body) then
    (Message 400 "Product ID and weight are required", st)
  else
    match body_productId body, body_product_weight body with
    | Some pid, Some weight =>
        match findById pid (Products st) with
        | None => (Message 404 "Product not found", st)
        | Some product =>
            let product_Calories := ((calories product * weight) / 100)%Q in
            let diaryEntry := loadedDiary ids user st in
            match findIndexC (sameProductToday st pid (today clk))
                             (entries diaryEntry) with
            | Throw => (Message 500 "Error adding/updating consumed product", st)
            | Normal entryIndex =>
                let e := {| entry_id := newEntryId ids; productId := pid;
                            product_weight := weight;
                            product_Calories := product_Calories;
                            date := readStamp clk |} in
                let saved := {| diary_id := diary_id diaryEntry;
                                diary_userId := diary_userId diaryEntry;
                                entries := putAt entryIndex e (entries diaryEntry) |} in
                (Json 201 saved, setDiaries (save diary_id saved (Diaries st)) st)
            end
        end
    | _, _ => (Message 400 "Product ID and weight are required", st)
    end.

(** The range of [DELETE /remove/:date/:productId] and [GET /consumed/:date]:
    [startDate = new Date(Date.UTC(y, m, d))] and
    [endDate = new Date(Date.UTC(y, m, d + 1, 23, 59, 59, 999))] on the UTC
    fields of [inputDate]. *)
Definition startDate (inputDate : Z) : Z :=
  UTC (getUTCFullYear inputDate) (getUTCMonth inputDate)
      (getUTCDate inputDate) 0 0 0 0.
Definition endDate (inputDate : Z) : Z :=
  UTC (getUTCFullYear inputDate) (getUTCMonth inputDate)
      (getUTCDate inputDate + 1) 23 59 59 999.

(** [DELETE /remove/:date/:productId].  [inputDate] is the time value of
    [new Date(req.params.date)]; the second parameter is compared with the
    [_id] of the entries. *)
Definition removeConsumed (user : ObjectId) (inputDate : Z) (productId : string)
           (st : Store) : Response Diary * Store :=
  match findDiaryBetween user (startDate inputDate) (endDate inputDate) st with
  | None => (Message 404 "Diary entry not found for this date!", st)
  | Some diaryEntry =>
      let entryIndex :=
        findIndex (fun entry => String.eqb (oidToString (entry_id entry)) productId)
                  (entries diaryEntry) in
      if entryIndex =? -1 then
        (Message 404 "Product not found in diary for this date!", st)
      else
        let saved := {| diary_id := diary_id diaryEntry;
                        diary_userId := diary_userId diaryEntry;
                        entries := delete (Z.to_nat entryIndex) (entries diaryEntry) |} in
        (Json 200 saved, setDiaries (save diary_id saved (Diaries st)) st)
  end.

(** [GET /consumed/:date]: the body is [{ date, consumedProducts }]; the
    store is only read.  [inputDate] is the time value of
    [new Date(req.params.date)], [tza] the offset of the process's
    timezone. *)
Definition getConsumed (tza : Z) (user : ObjectId) (inputDate : Z) (st : Store)
  : Response (Z * list DiaryEntry) :=
  match findDiaryBetween user (startDate inputDate) (endDate inputDate) st with
  | None => Json 200 (inputDate, [])
  | Some diaryEntries =>
      if (length (entries diaryEntries) =? 0)%nat then Json 200 (inputDate, [])
      else
        let filteredEntries :=
          List.filter (fun entry =>
                         bool_decide (toDateString tza (date entry)
                                      = toDateString tza inputDate))
                      (entries diaryEntries) in
        Json 200 (inputDate, filteredEntries)
  end.

End DiaryRoutes.

(** ** The summary route (routes/summery.js) *)

Module SummaryRoutes.
Import JSDate.

(** [x.toFixed(2)]: the sign is set aside, and the digits are those of the
    integer n for which n / 100 is closest to the magnitude, the larger n
    when two are equally close. *)
Definition toFixed2 (x : Q) : Fixed2 :=
  {| negative := negb (Qle_bool 0 x);
     hundredths := Z.to_N (Qfloor (Qabs x * 100 + (1 # 2))%Q) |}.

(** The number a numeral denotes, and the string it is. *)
Definition value (f : Fixed2) : Q :=
  let v := (Z.of_N (hundredths f) # 100)%Q in
  if negative f then (- v)%Q else v.

Definition decimal (n : N) : string := NilEmpty.string_of_uint (N.to_uint n).

Definition render (f : Fixed2) : string :=
  ((if negative f then "-" else "")
     ++ decimal (hundredths f / 100) ++ "."
     ++ decimal (hundredths f / 10 mod 10) ++ decimal (hundredths f mod 10))%string%N.

(** The body of the 200 response. *)
Record SummaryResponse := {
  response_date : Z;
  response_daily_left : Q;
  response_daily_consumed : Q;
  response_daily_rate : Q;
  response_percentage : Fixed2
}.

(** What [populate('summaryInfo.diaryId')] puts in place of a record's
    [diaryId]: the Diary with that [_id], or [null]. *)
Definition populateDiary (st : Store) (index : SummaryInfo) : option Diary :=
  findOne (fun d => N.eqb (diary_id d) (diaryId index)) (Diaries st).

(** The callback of [findIndex] over [summary.summaryInfo]:
    [index.diaryId.entries.some(entry =>
       new Date(entry.date).toDateString() === new Date(date).toDateString())].
    Reading [entries] of [null] throws. *)
Definition hasEntryOnDay (tza : Z) (st : Store) (inputDate : Z)
           (index : SummaryInfo) : Completion bool :=
  match populateDiary st index with
  | None => Throw
  | Some diary =>
      Normal (some (fun entry =>
                      bool_decide (toDateString tza (date entry)
                                   = toDateString tza inputDate))
                   (entries diary))
  end.

(** [let summary = await Summary.findOne({ userId })], and
    [new Summary({ userId, summaryInfo: [] })] when there is none. *)
Definition loadedSummary (newSummaryId : ObjectId) (user : ObjectId) (st : Store)
  : Summary :=
  match findOne (fun s => N.eqb (summary_userId s) user) (Summaries st) with
  | Some s => s
  | None => {| summary_id := newSummaryId; summary_userId := user;
               summaryInfo := [] |}
  end.

(** [GET /summary/:date].  [inputDate] is the time value of
    [new Date(req.params.date)], [tza] the offset of the process's
    timezone, [newSummaryId] the [_id] of a Summary created here. *)
Definition getSummary (tza : Z) (newSummaryId : ObjectId) (user : ObjectId)
           (inputDate : Z) (st : Store) : Response SummaryResponse * Store :=
  let startDate := startOfDay tza inputDate in
  let endDate := endOfDay tza inputDate in
  match findDiaryBetween user startDate endDate st with
  | None => (Message 404 "No diary entry found for this date.", st)
  | Some diaryEntry =>
      let totalConsumed := sumBy product_Calories (entries diaryEntry) in
      let dailyRate := 2800%Q in
      let dailyLeft := (dailyRate - totalConsumed)%Q in
      let dailyPercentage := toFixed2 ((totalConsumed / dailyRate) * 100)%Q in
      let summary := loadedSummary newSummaryId user st in
      match findIndexC (hasEntryOnDay tza st inputDate) (summaryInfo summary) with
      | Throw => (Message 500 "Error calculating summary!", st)
      | Normal existingSummaryIndex =>
          let info := {| diaryId := diary_id diaryEntry;
                         daily_left := dailyLeft;
                         daily_consumed := totalConsumed;
                         daily_rate := dailyRate;
                         percentage := dailyPercentage |} in
          let saved := {| summary_id := summary_id summary;
                          summary_userId := summary_userId summary;
                          summaryInfo :=
                            putAt existingSummaryIndex info (summaryInfo summary) |} in
          (Json 200 {| response_date := inputDate;
                       response_daily_left := dailyLeft;
                       response_daily_consumed := totalConsumed;
                       response_daily_rate := dailyRate;
                       response_percentage := dailyPercentage |},
           setSummaries (save summary_id saved (Summaries st)) st)
      end
  end.

End SummaryRoutes.

(** ** The recommendation routes (routes/recommendations.js) *)

Module Recommendations.

(** [Array.prototype.indexOf] on strings. *)
Fixpoint indexOfFrom (l : list string) (x : string) (i : Z) : Z :=
  match l with
  | [] => -1
  | y :: l' => if String.eqb y x then i else indexOfFrom l' x (i + 1)
  end.
Definition indexOf (l : list string) (x : string) : Z := indexOfFrom l x 0.

Definition getBloodTypeIndex (bloodType : string) : Z :=
  let bloodTypes := ["0(I)"; "A(II)"; "B(III)"; "AB(IV)"]%string in
  indexOf bloodTypes bloodType.

Record Body := {
  body_height : option Q;
  body_age : option Q;
  body_current_weight : option Q;
  body_desired_weight : option Q;
  body_blood_type : option string
}.

(** [!height || !age || !current_weight || !desired_weight || !blood_type]. *)
Definition missingField (body : Body) : bool :=
  falsyNum (body_height body) || falsyNum (body_age body)
  || falsyNum (body_current_weight body)
  || falsyNum (body_desired_weight body)
  || falsyStr (body_blood_type body).

(** The body of the 200 response. *)
Record Recommendation := {
  dailyCalories : Q;
  forbiddenProducts : list Product;
  response_length : nat
}.

(** [product.groupBloodNotAllowed[bloodTypeIndex] === true]. *)
Definition notAllowed (bloodTypeIndex : Z) (product : Product) : bool :=
  match groupBloodNotAllowed product !! Z.to_nat bloodTypeIndex with
  | Some (Some true) => true
  | _ => false
  end.

Section WithCollation.

(** [a.localeCompare(b)]: negative, zero or positive, by the collation of
    the process's locale. *)
Variable localeCompare : string -> string -> Z.

(** [arr.sort((a, b) => a.title.localeCompare(b.title))]: the sort is
    stable, an element stays before the later ones it compares equal
    to. *)
Fixpoint insert (a : Product) (sorted : list Product) : list Product :=
  match sorted with
  | [] => [a]
  | b :: rest =>
      if localeCompare (title a) (title b) <=? 0 then a :: b :: rest
      else b :: insert a rest
  end.
Fixpoint sort (arr : list Product) : list Product :=
  match arr with
  | [] => []
  | a :: rest => insert a (sort rest)
  end.

(** The three statements both routes share:
    [products.filter(...)], [.slice(0, 4)], [.sort(...)]. *)
Definition forbidden (products : list Product) (bloodTypeIndex : Z)
  : list Product :=
  let forbiddenProducts := List.filter (notAllowed bloodTypeIndex) products in
  let forbiddenProducts := take 4 forbiddenProducts in
  sort forbiddenProducts.

Definition recommendation (products : list Product) (bloodTypeIndex : Z)
  : Recommendation :=
  let forbiddenProducts := forbidden products bloodTypeIndex in
  {| dailyCalories := 2800;
     forbiddenProducts := forbiddenProducts;
     response_length := List.length forbiddenProducts |}.

(** [POST /public-recommendations].  (The messages of its failures are
    coloured by the [colors] package; the colour codes are left out.) *)
Definition publicRecommendations (body : Body) (st : Store)
  : Response Recommendation :=
  if missingField body then
    Message 400 "All fields are required!"
  else
    match body_blood_type body with
    | None => Message 400 "All fields are required!"
    | Some blood_type =>
        let bloodTypeIndex := getBloodTypeIndex blood_type in
        if bloodTypeIndex =? -1 then Message 400 "Invalid blood type!"
        else Json 200 (recommendation (Products st) bloodTypeIndex)
    end.

(** [POST /private-recommendations]: the profile is stored as the only
    element of the user's Calculator document before the products are
    read. *)
Definition privateRecommendations (newCalculatorId : ObjectId)
           (user : ObjectId) (body : Body) (st : Store)
  : Response Recommendation * Store :=
  if missingField body then
    (Message 400 "All fields are required!", st)
  else
    match body_height body, body_age body, body_current_weight body,
          body_desired_weight body, body_blood_type body with
    | Some height, Some age, Some current_weight, Some desired_weight,
      Some blood_type =>
        let bloodTypeIndex := getBloodTypeIndex blood_type in
        if bloodTypeIndex =? -1 then (Message 400 "Invalid blood type!", st)
        else
          let profile := {| height := height; age := age;
                            current_weight := current_weight;
                            desired_weight := desired_weight;
                            blood_type := blood_type |} in
          let saved :=
            match findOne (fun c => N.eqb (calculator_userId c) user)
                          (Calculators st) with
            | Some existingData =>
                {| calculator_id := calculator_id existingData;
                   calculator_userId := calculator_userId existingData;
                   data := [profile] |}
            | None =>
                {| calculator_id := newCalculatorId;
                   calculator_userId := user;
                   data := [profile] |}
            end in
          let st' := setCalculators (save calculator_id saved (Calculators st)) st in
          (Json 200 (recommendation (Products st') bloodTypeIndex), st')
    | _, _, _, _, _ => (Message 400 "All fields are required!", st)
    end.

(** Ascending by title, for the collation. *)
Definition byTitle (a b : Product) : Prop :=
  localeCompare (title a) (title b) <= 0.

End WithCollation.

(** A collation: strings compared code unit by code unit. *)
Definition codeUnitCompare (a b : string) : Z :=
  match String_as_OT.compare a b with
  | Lt => -1
  | Eq => 0
  | Gt => 1
  end.

End Recommendations.

(** ** Sample data *)

Module Samples.
Import JSDate DiaryRoutes SummaryRoutes.

(** 2024-09-12T00:00:00.000Z, and durations in milliseconds. *)
Definition sep12 : Z := 1726099200000.
Definition hours (h : Z) : Z := h * 3600000.
Definition minutes (m : Z) : Z := m * 60000.
Definition days (d : Z) : Z := d * msPerDay.

(** The product of the API documentation: 342 kcal per 100 g. *)
Definition omelet : Product :=
  {| product_id := 1%N; title := "Omelet with cheese"; calories := 342;
     groupBloodNotAllowed := [None; Some true; Some true; Some true; Some true] |}.

Definition catalog : Store :=
  {| Products := [omelet]; Diaries := []; Summaries := []; Calculators := [] |}.

Definition user : ObjectId := 7%N.

Definition consume (weight : Q) : ConsumedBody :=
  {| body_productId := Some (product_id omelet); body_product_weight := Some weight |}.

(** The user logs 150 g of the product at 10:00 UTC and 50 g at 18:30 UTC
    of the same day. *)
Definition logged150 : Response Diary * Store :=
  postConsumed (instant (sep12 + hours 10))
               {| newDiaryId := 100%N; newEntryId := 101%N |} user (consume 150) catalog.
Definition logged50 : Response Diary * Store :=
  postConsumed (instant (sep12 + hours 18 + minutes 30))
               {| newDiaryId := 102%N; newEntryId := 103%N |} user (consume 50)
               (snd logged150).

(** The user logs 150 g one minute before the UTC midnight that ends
    2024-09-12. *)
Definition loggedLate : Response Diary * Store :=
  postConsumed (instant (sep12 + hours 23 + minutes 59))
               {| newDiaryId := 100%N; newEntryId := 101%N |} user (consume 150) catalog.

(** An entry of the sample product with 100 kcal per 100 g taken, and the
    store in which the user's diary holds the given entries. *)
Definition entryAt (id : ObjectId) (kcal : Q) (t : Z) : DiaryEntry :=
  {| entry_id := id; productId := product_id omelet; product_weight := 100;
     product_Calories := kcal; date := t |}.
Definition diaryOf (es : list DiaryEntry) : Diary :=
  {| diary_id := 100%N; diary_userId := user; entries := es |}.
Definition storeOf (es : list DiaryEntry) : Store :=
  {| Products := [omelet]; Diaries := [diaryOf es]; Summaries := [];
     Calculators := [] |}.


(** A diary with an entry of 2024-09-11 and one of 2024-09-12; one whose
    only entry is of 23:00 UTC on 2024-09-11; one whose only entry exceeds
    the daily rate; one with an entry of 2024-09-10 and one of 2024-09-14. *)
Definition sep11AndSep12 : list DiaryEntry :=
  [entryAt 1%N 342 (sep12 - days 1 + hours 9); entryAt 2%N 171 (sep12 + hours 9)].
Definition lateSep11 : list DiaryEntry :=
  [entryAt 1%N 342 (sep12 - hours 1)].
Definition overBudget : list DiaryEntry :=
  [entryAt 1%N 3000 (sep12 + hours 9)].
Definition sep10AndSep14 : list DiaryEntry :=
  [entryAt 1%N 342 (sep12 - days 2 + hours 9); entryAt 2%N 171 (sep12 + days 2 + hours 9)].


(** The user logs a weight of -5. *)
Definition loggedNegative : Response Diary * Store :=
  postConsumed (instant (sep12 + hours 10))
               {| newDiaryId := 100%N; newEntryId := 101%N |} user (consume (-5)) catalog.

(** A catalog of six products, five of them not allowed for the blood
    type of index 1, and a request for that blood type. *)
Definition restricted (id : ObjectId) (name : string) (flag : bool) : Product :=
  {| product_id := id; title := name; calories := 100;
     groupBloodNotAllowed := [None; Some flag; Some false; Some false; Some false] |}.
Definition sixProducts : Store :=
  {| Products := [restricted 1%N "Eggplant" true; restricted 2%N "Dill" true;
                  restricted 3%N "Carrot" false; restricted 4%N "Buckwheat" true;
                  restricted 5%N "Zucchini" true; restricted 6%N "Apricot" true];
     Diaries := []; Summaries := []; Calculators := [] |}.
Definition profileA : Recommendations.Body :=
  {| Recommendations.body_height := Some 170%Q;
     Recommendations.body_age := Some 30%Q;
     Recommendations.body_current_weight := Some 80%Q;
     Recommendations.body_desired_weight := Some 70%Q;
     Recommendations.body_blood_type := Some "A(II)"%string |}.

End Samples.

(** ** The statements of the specification, in its words *)

Module Stated.
Import JSDate DiaryRoutes SummaryRoutes.


(** "The entries for that (userId, productId, day)": the entries of a
    user's diary with the product, dated on the UTC day. *)
Definition entriesOn (pid : ObjectId) (day : Z) (d : Diary) : list DiaryEntry :=
  List.filter (fun e => N.eqb (productId e) pid && (Day (date e) =? day))
              (entries d).

(** The UTC day of a date, as a range of time values. *)
Definition startOfUTCDay (t : Z) : Z := Day t * msPerDay.
Definition endOfUTCDay (t : Z) : Z := Day t * msPerDay + msPerDay - 1.

(** "The sum of product_Calories over exactly those diary entries whose date
    falls within the range": the entries of a diary dated in [lo, hi], the
    others, and the calories of each part. *)
Definition within (lo hi : Z) (e : DiaryEntry) : bool :=
  (lo <=? date e) && (date e <=? hi).
Definition consumedWithin (lo hi : Z) (d : Diary) : Q :=
  sumBy product_Calories (List.filter (within lo hi) (entries d)).
Definition consumedOutside (lo hi : Z) (d : Diary) : Q :=
  sumBy product_Calories (List.filter (fun e => negb (within lo hi e)) (entries d)).


(** The records of a user's summary history. *)
Definition history (user : ObjectId) (st : Store) : list SummaryInfo :=
  summaryInfo (loadedSummary 0%N user st).




End Stated.

(** ** The authentication routes (routes/auth.js) *)

Module AuthRoutes.

(** A User document.  [token] is [null] until a login sets it. *)
Record User := {
  user_id : ObjectId;
  name : string;
  email : string;
  password : string;
  token : option string
}.

Definition setToken (t : option string) (u : User) : User :=
  {| user_id := user_id u; name := name u; email := email u;
     password := password u; token := t |}.

Record RegisterBody := {
  register_name : string;
  register_email : string;
  register_password : string
}.

Record LoginBody := { login_email : string; login_password : string }.

(** The [user] object of the 201 and 200 responses. *)
Record PublicUser := { public_name : string; public_email : string }.

Record LoginResponse := {
  login_message : string;
  login_token : string;
  login_user : PublicUser
}.

(** [User.findOne({ email })]. *)
Definition findByEmail (e : string) (users : list User) : option User :=
  findOne (fun u => String.eqb (email u) e) users.

Section WithUserModel.

(** The User model (models/user.js) and the token library are not part of
    the routes; the routes use them through three operations:
    what the model stores for the password of a new user,
    [user.isValidPassword(password)], and
    [jwt.sign({ id }, process.env.SECRET_KEY, { expiresIn: '3h' })]. *)
Variable storedPassword : string -> string.
Variable isValidPassword : User -> string -> bool.
Variable sign : ObjectId -> string.

(** [POST /register], on a body that passed [validateSingIn].  [newId] is the
    [_id] of the User created. *)
Definition register (newId : ObjectId) (body : RegisterBody) (users : list User)
  : Response PublicUser * list User :=
  match findByEmail (register_email body) users with
  | Some existingUser => (Message 409 "Email already registered!", users)
  | None =>
      let newUser := {| user_id := newId;
                        name := register_name body;
                        email := register_email body;
                        password := storedPassword (register_password body);
                        token := None |} in
      (Json 201 {| public_name := name newUser; public_email := email newUser |},
       save user_id newUser users)
  end.

(** [POST /login], on a body that passed [validateLogIn]. *)
Definition login (body : LoginBody) (users : list User)
  : Response LoginResponse * list User :=
  match findByEmail (login_email body) users with
  | None => (Message 401 "Email or password is wrong", users)
  | Some user =>
      if negb (isValidPassword user (login_password body)) then
        (Message 401 "Email or password is wrong", users)
      else
        let token := sign (user_id user) in
        let user := setToken (Some token) user in
        (Json 200 {| login_message := "Login successful";
                     login_token := token;
                     login_user := {| public_name := name user;
                                      public_email := email user |} |},
         save user_id user users)
  end.

End WithUserModel.

(** [GET /current]: the name of [req.user]. *)
Definition current (user : User) : Response string := Json 200 (name user).

(** [GET /logout]: [req.user] is saved with its token set to [null]. *)
Definition logout (user : User) (users : list User) : Response unit * list User :=
  (Message 200 "Successfully logged out", save user_id (setToken None user) users).

End AuthRoutes.

(** ** Well-formed stores *)

Module Invariants.

(** The diaries have distinct [_id]s and there is at most one per user. *)
Definition oneDiaryPerUser (st : Store) : Prop :=
  NoDup (List.map diary_id (Diaries st)) /\
  NoDup (List.map diary_userId (Diaries st)).

(** The users have distinct [_id]s and distinct emails. *)
Definition distinctUsers (users : list AuthRoutes.User) : Prop :=
  NoDup (List.map AuthRoutes.user_id users) /\
  NoDup (List.map AuthRoutes.email users).

(** The entries of a diary dated on the UTC day of [inputDate]. *)
Definition entriesOfDay (inputDate : Z) (d : Diary) : list DiaryEntry :=
  List.filter (fun e => JSDate.Day (date e) =? JSDate.Day inputDate) (entries d).

(** The profile a recommendation request carries. *)
Definition profileOf (h a cw dw : Q) (bt : string) : Profile :=
  {| height := h; age := a; current_weight := cw; desired_weight := dw;
     blood_type := bt |}.

End Invariants.

(** ** More sample data *)

Module MoreSamples.
Import JSDate DiaryRoutes SummaryRoutes AuthRoutes.

(** A second user with a diary of her own, beside the sample user's. *)
Definition otherUser : ObjectId := 8%N.
Definition twoUsers : Store :=
  {| Products := [Samples.omelet];
     Diaries := [Samples.diaryOf Samples.sep11AndSep12;
                 {| diary_id := 200%N; diary_userId := otherUser;
                    entries := [Samples.entryAt 9%N 100 (Samples.sep12 + Samples.hours 7)] |}];
     Summaries := []; Calculators := [] |}.

(** A diary whose entry refers to a product that is not in the catalog. *)
Definition danglingEntry : DiaryEntry :=
  {| entry_id := 1%N; productId := 99%N; product_weight := 100;
     product_Calories := 50; date := Samples.sep12 - Samples.days 3 |}.
Definition danglingStore : Store := Samples.storeOf [danglingEntry].

(** A user model for the samples: the password is stored reversed, and a
    token is the user's id in hexadecimal after a fixed header. *)
Fixpoint reverse (s : string) : string :=
  match s with
  | EmptyString => EmptyString
  | String c s' => (reverse s' ++ String c EmptyString)%string
  end.
Definition sampleValid (u : User) (pw : string) : bool :=
  String.eqb (password u) (reverse pw).
Definition sampleSign (id : ObjectId) : string := ("jwt." ++ oidToString id)%string.

Definition andrei : RegisterBody :=
  {| register_name := "Popescu Andrei";
     register_email := "popescuandrei@example.com";
     register_password := "123456" |}.
Definition andreiLogin : LoginBody :=
  {| login_email := "popescuandrei@example.com"; login_password := "123456" |}.

End MoreSamples.

(** * Properties

    ** The calendar functions are inverse to each other *)

Module JSDateFacts.
Import JSDate.

Lemma all_from_spec f n :
  forall k, all_from f k n = true ->
  forall i, k <= i < k + Z.of_nat n -> f i = true.
Proof.
  induction n as [|n IH]; intros k Hall i Hi; [lia|].
  cbn [all_from] in Hall. apply andb_prop in Hall as [Hk Hrest].
  destruct (Z.eq_dec i k) as [->|Hne]; [exact Hk|].
  apply (IH (k + 1)); [exact Hrest|lia].
Qed.

Lemma era_checked : all_from era_day_ok 0 (Z.to_nat daysPerEra) = true.
Proof. vm_compute. reflexivity. Qed.

Lemma era_day_ok_all doe : 0 <= doe < daysPerEra -> era_day_ok doe = true.
Proof.
  intros H. apply (all_from_spec _ _ 0 era_checked).
  rewrite Z2Nat.id; unfold daysPerEra in *; lia.
Qed.

(** A day number is recovered from its civil date. *)
Lemma days_from_civil_from_days z :
  let '(y, m, d) := civil_from_days z in days_from_civil y m d = z.
Proof.
  unfold civil_from_days.
  set (z0 := z + 719468).
  assert (Hdoe : 0 <= z0 mod daysPerEra < daysPerEra)
    by (apply Z.mod_pos_bound; unfold daysPerEra; lia).
  pose proof (era_day_ok_all _ Hdoe) as Hok.
  pose proof (Z.div_mod z0 daysPerEra ltac:(unfold daysPerEra; lia)) as Hz0.
  set (doe := z0 mod daysPerEra) in *.
  set (era := z0 / daysPerEra) in *.
  unfold era_day_ok in Hok. cbv zeta in Hok.
  set (yoe := yoe_of_doe doe) in *.
  unfold doy_of_doe in *. cbv zeta in *. fold yoe in Hok |- *.
  set (doy := doe - (365 * yoe + yoe / 4 - yoe / 100)) in *.
  set (mp := mp_of_doy doy) in *.
  repeat (apply andb_prop in Hok as [Hok ?]).
  unfold days_from_civil. cbv zeta.
  set (m := if mp <? 10 then mp + 3 else mp - 9).
  set (y := yoe + era * 400).
  assert (Hy : (if m <=? 2 then (if m <=? 2 then y + 1 else y) - 1
                else if m <=? 2 then y + 1 else y) = y)
    by (destruct (m <=? 2); lia).
  assert (Hmp : (if 2 <? m then m - 3 else m + 9) = mp)
    by (subst m; destruct (mp <? 10) eqn:E; destruct (2 <? _) eqn:E2; lia).
  rewrite Hy, Hmp.
  replace (y / 400) with era
    by (apply (Z.div_unique _ _ _ yoe); subst y; lia).
  replace (y mod 400) with yoe
    by (apply (Z.mod_unique _ _ era yoe); subst y; lia).
  unfold z0 in *; lia.
Qed.

(** The civil date of a day has its month in 1..12. *)
Lemma civil_month_range z :
  1 <= snd (fst (civil_from_days z)) <= 12.
Proof.
  unfold civil_from_days. cbn [fst snd].
  assert (Hdoe : 0 <= (z + 719468) mod daysPerEra < daysPerEra)
    by (apply Z.mod_pos_bound; unfold daysPerEra; lia).
  pose proof (era_day_ok_all _ Hdoe) as Hok.
  unfold era_day_ok in Hok. cbv zeta in Hok.
  repeat (apply andb_prop in Hok as [Hok ?]).
  destruct (_ <? 10) eqn:E; lia.
Qed.

(** [MakeDay] of the date fields of [t] is the day of [t]; a larger date
    field counts on from there. *)
Lemma MakeDay_fields t k :
  MakeDay (YearFromTime t) (MonthFromTime t) (DateFromTime t + k) = Day t + k.
Proof.
  unfold MakeDay, YearFromTime, MonthFromTime, DateFromTime.
  pose proof (days_from_civil_from_days (Day t)) as Hrt.
  pose proof (civil_month_range (Day t)) as Hm.
  destruct (civil_from_days (Day t)) as [[y m] d]. cbn [fst snd] in *.
  replace ((m - 1) / 12) with 0
    by (apply (Z.div_unique _ _ _ (m - 1)); lia).
  replace ((m - 1) mod 12) with (m - 1)
    by (apply (Z.mod_unique _ _ 0 (m - 1)); lia).
  replace (y + 0) with y by lia. replace (m - 1 + 1) with m by lia.
  rewrite <- Hrt. unfold days_from_civil. cbv zeta. lia.
Qed.

(** A time at or after the epoch is in a year after 99. *)
Lemma YearFromTime_epoch t : 0 <= t -> 1600 <= YearFromTime t.
Proof.
  intros Ht. unfold YearFromTime, civil_from_days. cbn [fst].
  assert (0 <= Day t) by (apply Z.div_pos; unfold msPerDay; lia).
  assert (Hdoe : 0 <= (Day t + 719468) mod daysPerEra < daysPerEra)
    by (apply Z.mod_pos_bound; unfold daysPerEra; lia).
  pose proof (era_day_ok_all _ Hdoe) as Hok.
  unfold era_day_ok in Hok. cbv zeta in Hok.
  repeat (apply andb_prop in Hok as [Hok ?]).
  assert (4 <= (Day t + 719468) / daysPerEra)
    by (apply Z.div_le_lower_bound; unfold daysPerEra; lia).
  destruct (_ <=? 2); lia.
Qed.

(** [new Date(Date.UTC(d.getUTCFullYear(), d.getUTCMonth(), d.getUTCDate()))]
    is the UTC midnight that starts the day of [d]. *)
Lemma UTC_midnight t :
  0 <= t ->
  UTC (getUTCFullYear t) (getUTCMonth t) (getUTCDate t) 0 0 0 0
  = Day t * msPerDay.
Proof.
  intros Ht. unfold UTC, getUTCFullYear, getUTCMonth, getUTCDate.
  pose proof (YearFromTime_epoch t Ht) as Hy.
  replace (YearFromTime t <=? 99) with false by (symmetry; apply Z.leb_gt; lia).
  rewrite andb_false_r.
  pose proof (MakeDay_fields t 0) as H. rewrite Z.add_0_r in H.
  rewrite Z.add_0_r in H. rewrite H. unfold MakeTime. lia.
Qed.

(** [Date.UTC(y, m, d + 1, 23, 59, 59, 999)] on the date fields of [t] is
    the last millisecond of the day after the day of [t]. *)
Lemma UTC_next_day_end t :
  0 <= t ->
  UTC (getUTCFullYear t) (getUTCMonth t) (getUTCDate t + 1) 23 59 59 999
  = (Day t + 2) * msPerDay - 1.
Proof.
  intros Ht. unfold UTC, getUTCFullYear, getUTCMonth, getUTCDate.
  pose proof (YearFromTime_epoch t Ht) as Hy.
  replace (YearFromTime t <=? 99) with false by (symmetry; apply Z.leb_gt; lia).
  rewrite andb_false_r, MakeDay_fields. unfold MakeTime, msPerDay. lia.
Qed.

Lemma Day_of_midnight n k : 0 <= k < msPerDay -> Day (n * msPerDay + k) = n.
Proof.
  intros Hk. unfold Day. symmetry.
  apply (Z.div_unique _ _ _ k); unfold msPerDay in *; lia.
Qed.

Lemma Day_bounds t : Day t * msPerDay <= t < (Day t + 1) * msPerDay.
Proof.
  unfold Day. pose proof (Z.div_mod t msPerDay ltac:(unfold msPerDay; lia)).
  pose proof (Z.mod_pos_bound t msPerDay ltac:(unfold msPerDay; lia)). lia.
Qed.

(** Two times carry the same ISO date part exactly when they fall on the
    same UTC day. *)
Lemma isoDatePart_inj t1 t2 : isoDatePart t1 = isoDatePart t2 <-> Day t1 = Day t2.
Proof.
  unfold isoDatePart. split; [|congruence].
  intros H. pose proof (days_from_civil_from_days (Day t1)) as H1.
  pose proof (days_from_civil_from_days (Day t2)) as H2.
  rewrite H in H1. destruct (civil_from_days (Day t2)) as [[y m] d].
  congruence.
Qed.

Lemma toDateString_inj tza t1 t2 :
  toDateString tza t1 = toDateString tza t2
  <-> Day (LocalTime tza t1) = Day (LocalTime tza t2).
Proof. apply isoDatePart_inj. Qed.

End JSDateFacts.

(** ** Logging a consumption *)

Module DiaryFacts.
Import JSDate DiaryRoutes JSDateFacts.

Lemma hexDigit_not_brace n : hexDigit n <> "{"%char.
Proof.
  destruct n as [|p]; [discriminate|].
  do 4 (destruct p as [p|p|]; try discriminate).
Qed.

(** The string of a populated reference is never the string of an ObjectId:
    one opens with a brace, the other with a hexadecimal digit. *)
Lemma docToString_not_oid d i :
  String.eqb (docToString d) (oidToString i) = false.
Proof.
  apply String.eqb_neq. unfold docToString, oidToString.
  cbn [hexDigits append]. intros H. injection H as Hhead _.
  exact (hexDigit_not_brace _ (eq_sym Hhead)).
Qed.

(** So the callback of [findIndex] accepts no entry. *)
Lemma sameProductToday_rejects st pid tod e :
  sameProductToday st pid tod e = Throw \/
  sameProductToday st pid tod e = Normal false.
Proof.
  unfold sameProductToday. destruct (populate st e); [right|left; reflexivity].
  rewrite docToString_not_oid. reflexivity.
Qed.

Lemma findIndexFromC_rejects {A} (f : A -> Completion bool) l i :
  (forall x, f x = Throw \/ f x = Normal false) ->
  findIndexFromC f l i = Throw \/ findIndexFromC f l i = Normal (-1).
Proof.
  intros Hf. revert i. induction l as [|x l IH]; intros i; cbn.
  - right; reflexivity.
  - destruct (Hf x) as [-> | ->]; [left; reflexivity|apply IH].
Qed.

Lemma putAt_push {A} (x : A) l : putAt (-1) x l = l ++ [x].
Proof. reflexivity. Qed.

Lemma putAt_assign {A} (i : Z) (x : A) l :
  0 <= i -> putAt i x l = <[Z.to_nat i := x]> l.
Proof. intros Hi. unfold putAt. destruct (i >? -1) eqn:E; [reflexivity|lia]. Qed.

(** Every successful [POST /consumed] pushes its entry: the entries that
    were there stay, in their order, and the new one comes last. *)
Lemma postConsumed_pushes clk ids user body st d st' :
  postConsumed clk ids user body st = (Json 201 d, st') ->
  exists pid w product,
    body_productId body = Some pid /\ body_product_weight body = Some w /\
    findById pid (Products st) = Some product /\
    entries d = entries (loadedDiary ids user st)
                ++ [{| entry_id := newEntryId ids; productId := pid;
                       product_weight := w;
                       product_Calories := (calories product * w / 100)%Q;
                       date := readStamp clk |}] /\
    st' = setDiaries (save diary_id d (Diaries st)) st.
Proof.
  unfold postConsumed.
  destruct (falsyId _ || falsyNum _); [discriminate|].
  destruct (body_productId body) as [pid|] eqn:Epid; [|discriminate].
  destruct (body_product_weight body) as [w|] eqn:Ew; [|discriminate].
  destruct (findById pid (Products st)) as [product|] eqn:Ep; [|discriminate].
  set (diary := loadedDiary ids user st).
  destruct (findIndexFromC_rejects (sameProductToday st pid (today clk))
              (entries diary) 0 (sameProductToday_rejects st pid (today clk)))
    as [E|E]; unfold findIndexC; rewrite E; [discriminate|].
  intros H. injection H as <- <-.
  exists pid, w, product. rewrite putAt_push. cbn.
  repeat split; try reflexivity; assumption.
Qed.

(** After [POST /consumed] has saved the diary it worked on, that diary is
    the one [Diary.findOne({ userId })] returns. *)
Lemma find_save_diary user d coll :
  diary_userId d = user ->
  match List.find (fun x => N.eqb (diary_userId x) user) coll with
  | Some d0 => diary_id d0 = diary_id d
  | None => True
  end ->
  List.find (fun x => N.eqb (diary_userId x) user) (save diary_id d coll) = Some d.
Proof.
  intros Hu. induction coll as [|x coll IH]; cbn [save List.find].
  - intros _. rewrite Hu, N.eqb_refl. reflexivity.
  - destruct (N.eqb (diary_id x) (diary_id d)) eqn:Eid; cbn [List.find].
    + intros _. rewrite Hu, N.eqb_refl. reflexivity.
    + destruct (N.eqb (diary_userId x) user) eqn:Eu.
      * intros Hid. apply N.eqb_neq in Eid. contradiction.
      * exact IH.
Qed.

Lemma loadedDiary_after_save ids ids' user st es :
  let d := {| diary_id := diary_id (loadedDiary ids user st);
              diary_userId := diary_userId (loadedDiary ids user st);
              entries := es |} in
  loadedDiary ids' user (setDiaries (save diary_id d (Diaries st)) st) = d.
Proof.
  intros d. unfold loadedDiary at 1. unfold findDiary, findOne. cbn [Diaries setDiaries].
  rewrite (find_save_diary user d).
  - reflexivity.
  - subst d. cbn [diary_userId]. unfold loadedDiary, findDiary, findOne.
    destruct (List.find _ (Diaries st)) as [d0|] eqn:E; [|reflexivity].
    apply find_some in E as [_ E]. apply N.eqb_eq in E. exact E.
  - subst d. cbn [diary_id]. unfold loadedDiary, findDiary, findOne.
    destruct (List.find _ (Diaries st)); [reflexivity|exact I].
Qed.

(** C1 (the code does not do what the claim says): the same product logged
    twice by the same user, both requests answered 201.  The diary then
    holds the entries it held before and, after them, the entry of the first
    request and the entry of the second; when both requests fall on one UTC
    day the diary has at least two entries of the product on that day.  The
    claim is that the entry of the second request replaces the one of the
    first and exactly one remains. *)
Theorem postConsumed_twice_keeps_both
        clk1 ids1 clk2 ids2 user pid w1 w2 st d1 st1 d2 st2 :
  postConsumed clk1 ids1 user
               {| body_productId := Some pid; body_product_weight := Some w1 |} st
  = (Json 201 d1, st1) ->
  postConsumed clk2 ids2 user
               {| body_productId := Some pid; body_product_weight := Some w2 |} st1
  = (Json 201 d2, st2) ->
  exists product,
    findById pid (Products st) = Some product /\
    entries d2
    = entries (loadedDiary ids1 user st)
      ++ [{| entry_id := newEntryId ids1; productId := pid; product_weight := w1;
             product_Calories := (calories product * w1 / 100)%Q;
             date := readStamp clk1 |};
          {| entry_id := newEntryId ids2; productId := pid; product_weight := w2;
             product_Calories := (calories product * w2 / 100)%Q;
             date := readStamp clk2 |}] /\
    (forall day,
        Day (readStamp clk1) = day -> Day (readStamp clk2) = day ->
        (2 <= List.length (Stated.entriesOn pid day d2))%nat).
Proof.
  intros H1 H2.
  destruct (postConsumed_pushes _ _ _ _ _ _ _ H1)
    as (pid1 & w1' & product & Epid & Ew & Hp & He1 & Hst1).
  cbn in Epid, Ew. injection Epid as <-. injection Ew as <-.
  destruct (postConsumed_pushes _ _ _ _ _ _ _ H2)
    as (pid2 & w2' & product' & Epid & Ew & Hp' & He2 & _).
  cbn in Epid, Ew. injection Epid as <-. injection Ew as <-.
  exists product. split; [exact Hp|].
  assert (Hd1 : d1 = {| diary_id := diary_id (loadedDiary ids1 user st);
                        diary_userId := diary_userId (loadedDiary ids1 user st);
                        entries := entries d1 |}).
  { unfold postConsumed in H1. cbn in H1. rewrite Hp in H1.
    destruct (Qeq_bool w1 0); [discriminate|].
    destruct (findIndexC _ _); [|discriminate].
    injection H1 as <- _. reflexivity. }
  assert (Hload : loadedDiary ids2 user st1 = d1).
  { rewrite Hst1. rewrite Hd1 at 1 2. apply loadedDiary_after_save. }
  rewrite Hload in He2.
  assert (Hsame : Products st1 = Products st) by (rewrite Hst1; reflexivity).
  unfold findById in Hp'. rewrite Hsame in Hp'. unfold findById in Hp.
  assert (product' = product) by congruence. subst product'.
  assert (Hall : entries d2
                 = entries (loadedDiary ids1 user st)
                   ++ [{| entry_id := newEntryId ids1; productId := pid;
                          product_weight := w1;
                          product_Calories := (calories product * w1 / 100)%Q;
                          date := readStamp clk1 |};
                       {| entry_id := newEntryId ids2; productId := pid;
                          product_weight := w2;
                          product_Calories := (calories product * w2 / 100)%Q;
                          date := readStamp clk2 |}])
    by (rewrite He2, He1, <- app_assoc; reflexivity).
  split; [exact Hall|].
  intros day Hday1 Hday2. unfold Stated.entriesOn.
  rewrite Hall, List.filter_app, length_app. cbn [List.filter productId date].
  rewrite N.eqb_refl, Hday1, Hday2, Z.eqb_refl. cbn. lia.
Qed.

(** 150 g at 10:00 UTC and 50 g at 18:30 UTC of 2024-09-12, no diary before:
    the diary holds both entries, dated the same day. *)
Lemma postConsumed_twice_keeps_both_witness :
  exists d1 st1 d2 st2,
    Samples.logged150 = (Json 201 d1, st1) /\
    Samples.logged50 = (Json 201 d2, st2) /\
    List.map (fun e => (productId e, isoDatePart (date e), product_weight e))
             (entries d2)
    = [(1%N, (2024, 9, 12), 150%Q); (1%N, (2024, 9, 12), 50%Q)].
Proof.
  destruct (postConsumed_twice_keeps_both
              (instant (Samples.sep12 + Samples.hours 10))
              {| newDiaryId := 100%N; newEntryId := 101%N |}
              (instant (Samples.sep12 + Samples.hours 18 + Samples.minutes 30))
              {| newDiaryId := 102%N; newEntryId := 103%N |}
              Samples.user (product_id Samples.omelet) 150%Q 50%Q Samples.catalog
              _ _ _ _ eq_refl eq_refl) as (product & _ & Hentries & _).
  do 4 eexists. split; [reflexivity|]. split; [reflexivity|].
  refine (eq_trans (f_equal (List.map _) Hentries) _). vm_compute. reflexivity.
Defined.





(** ** Removing and listing consumptions *)

Lemma find_refine {A} (f g : A -> bool) l d :
  List.find f l = Some d -> g d = true ->
  List.find (fun x => f x && g x) l = Some d.
Proof.
  induction l as [|x l IH]; cbn; [discriminate|].
  destruct (f x) eqn:Ef; cbn.
  - intros H Hg. injection H as ->. rewrite Hg. reflexivity.
  - intros H Hg. apply IH; assumption.
Qed.

Lemma findIndexFrom_first {A} (f : A -> bool) (l : list A) :
  forall k i v,
    l !! i = Some v -> f v = true ->
    (forall j w, (j < i)%nat -> l !! j = Some w -> f w = false) ->
    findIndexFrom f l k = k + Z.of_nat i.
Proof.
  induction l as [|x l IH]; intros k i v Hi Hv Hbefore; [discriminate|].
  destruct i as [|i]; cbn in Hi |- *.
  - injection Hi as ->. rewrite Hv. lia.
  - rewrite (Hbefore 0%nat x); [|lia|reflexivity].
    rewrite (IH (k + 1) i v Hi Hv); [lia|].
    intros j w Hj Hw. apply (Hbefore (S j) w); [lia|exact Hw].
Qed.

(** The window of [DELETE /remove] and [GET /consumed]: from the UTC
    midnight that starts the requested day to the last millisecond of the
    day after it. *)
Lemma window_two_days inputDate :
  0 <= inputDate ->
  startDate inputDate = Day inputDate * msPerDay /\
  endDate inputDate = (Day inputDate + 2) * msPerDay - 1.
Proof.
  intros H. unfold startDate, endDate.
  split; [exact (UTC_midnight _ H)|exact (UTC_next_day_end _ H)].
Qed.

(** The filter on the dates is passed by a diary with an entry in the
    window. *)
Lemma entriesDateBetween_intro lo hi d e :
  In e (entries d) -> lo <= date e <= hi -> entriesDateBetween lo hi d = true.
Proof.
  intros Hin [Hlo Hhi]. unfold entriesDateBetween.
  apply andb_true_intro; split; apply existsb_exists; exists e;
    (split; [exact Hin|lia]).
Qed.



(** In a process whose timezone is UTC the filter of [GET /consumed] keeps
    the entries of the requested UTC day. *)
Lemma toDateString_utc t1 t2 :
  toDateString 0 t1 = toDateString 0 t2 <-> isoDatePart t1 = isoDatePart t2.
Proof.
  rewrite toDateString_inj, isoDatePart_inj. unfold LocalTime.
  rewrite !Z.add_0_r. reflexivity.
Qed.

(** C2 (the code does not do what the claim says): a process [tza]
    milliseconds east of UTC and an entry dated in the last [tza]
    milliseconds of a UTC day.  The write path dates the entry that day (it
    carries the ISO date part of the day's midnight), and [GET /consumed]
    asked for that day does not list it, whatever the store; the claim is
    that the read path agrees with the write path in every timezone. *)
Theorem getConsumed_omits_end_of_utc_day tza user day st e l :
  0 < tza < msPerDay ->
  Day (date e) = day ->
  msPerDay - tza <= TimeWithinDay (date e) ->
  getConsumed tza user (day * msPerDay) st = Json 200 (day * msPerDay, l) ->
  isoDatePart (date e) = isoDatePart (day * msPerDay) /\ ~ In e l.
Proof.
  intros Htza Hday Hlate Hget.
  assert (Hmid : Day (day * msPerDay) = day)
    by (rewrite <- (Z.add_0_r (day * msPerDay)); apply Day_of_midnight;
        unfold msPerDay; lia).
  split; [apply isoDatePart_inj; congruence|].
  intros Hin.
  assert (Hfiltered :
            In e (List.filter
                    (fun entry => bool_decide (toDateString tza (date entry)
                                               = toDateString tza (day * msPerDay)))
                    l) \/ exists d, In e (List.filter
                    (fun entry => bool_decide (toDateString tza (date entry)
                                               = toDateString tza (day * msPerDay)))
                    (entries d))).
  { unfold getConsumed in Hget.
    destruct (findDiaryBetween _ _ _ _) as [d|].
    - destruct (_ =? _)%nat.
      + injection Hget as <-. destruct Hin.
      + injection Hget as <-. right. exists d. exact Hin.
    - injection Hget as <-. destruct Hin. }
  assert (Hsame : toDateString tza (date e) = toDateString tza (day * msPerDay)).
  { destruct Hfiltered as [H|[d H]]; apply filter_In in H as [_ H];
      apply bool_decide_eq_true in H; exact H. }
  apply toDateString_inj in Hsame. unfold LocalTime in Hsame.
  rewrite (Day_of_midnight day tza) in Hsame by lia.
  pose proof (Z.div_mod (date e) msPerDay ltac:(unfold msPerDay; lia)) as Hdm.
  pose proof (Z.mod_pos_bound (date e) msPerDay ltac:(unfold msPerDay; lia)) as Hmod.
  unfold TimeWithinDay in Hlate. unfold Day in Hday. rewrite Hday in Hdm.
  replace (date e + tza)
    with ((day + 1) * msPerDay + (date e mod msPerDay + tza - msPerDay))
    in Hsame by lia.
  rewrite Day_of_midnight in Hsame; lia.
Qed.

(** Two hours east of UTC, logged at 23:59 UTC of 2024-09-12: dated
    2024-09-12 and not listed for 2024-09-12. *)
Lemma getConsumed_omits_end_of_utc_day_witness :
  findDiary Samples.user (snd Samples.loggedLate)
  = Some {| diary_id := 100%N; diary_userId := Samples.user;
            entries := [{| entry_id := 101%N; productId := 1%N;
                           product_weight := 150;
                           product_Calories := (342 * 150) / 100;
                           date := Samples.sep12 + Samples.hours 23 + Samples.minutes 59 |}] |} /\
  isoDatePart (Samples.sep12 + Samples.hours 23 + Samples.minutes 59) = (2024, 9, 12) /\
  getConsumed (Samples.hours 2) Samples.user Samples.sep12 (snd Samples.loggedLate)
  = Json 200 (Samples.sep12, []).
Proof.
  pose proof (getConsumed_omits_end_of_utc_day
                (Samples.hours 2) Samples.user 19978 (snd Samples.loggedLate)
                {| entry_id := 101%N; productId := 1%N; product_weight := 150;
                   product_Calories := (342 * 150) / 100;
                   date := Samples.sep12 + Samples.hours 23 + Samples.minutes 59 |}
                []
                ltac:(vm_compute; split; reflexivity) eq_refl
                ltac:(vm_compute; discriminate) eq_refl) as [Hiso _].
  split; [reflexivity|]. split; [|reflexivity].
  refine (eq_trans Hiso _). vm_compute. reflexivity.
Defined.

(** The same entry through the three routes: the write path dates it
    2024-09-12; [GET /consumed/2024-09-12] lists it in a process on UTC and
    not in one two hours east; and [DELETE /remove] asked for 2024-09-11
    finds the diary through it and removes it. *)
Lemma late_entry_through_the_routes :
  let st := snd Samples.loggedLate in
  let e := Samples.entryAt 101%N 513 (Samples.sep12 + Samples.hours 23 + Samples.minutes 59) in
  status (fst Samples.loggedLate) = 201 /\
  List.map (fun x => (entry_id x, isoDatePart (date x)))
           (entries (loadedDiary {| newDiaryId := 0%N; newEntryId := 0%N |} Samples.user st))
  = [(101%N, (2024, 9, 12))] /\
  isoDatePart Samples.sep12 = (2024, 9, 12) /\
  getConsumed (Samples.hours 2) Samples.user Samples.sep12 st
  = Json 200 (Samples.sep12, []) /\
  (match getConsumed 0 Samples.user Samples.sep12 st with
   | Json 200 (_, l) => List.map entry_id l = [101%N]
   | _ => False
   end) /\
  (match removeConsumed Samples.user (Samples.sep12 - Samples.days 1)
                        (oidToString 101%N) st with
   | (Json 200 d, _) => entries d = []
   | _ => False
   end).
Proof. vm_compute. repeat split; reflexivity. Qed.

End DiaryFacts.

(** ** The daily summary *)

Module SummaryFacts.
Import JSDate DiaryRoutes SummaryRoutes JSDateFacts.

(** Without a diary that passes the filter the answer is 404 and nothing is
    stored. *)
Lemma getSummary_not_found tza nid user inputDate st :
  findDiaryBetween user (startOfDay tza inputDate) (endOfDay tza inputDate) st = None ->
  getSummary tza nid user inputDate st
  = (Message 404 "No diary entry found for this date.", st).
Proof. intros H. unfold getSummary. rewrite H. reflexivity. Qed.

(** What a 200 answer of [GET /summary/:date] tells: the diary the query
    located, the index [findIndex] returned, the record computed and the
    Summary document saved. *)
Lemma getSummary_ok tza nid user inputDate st r st' :
  getSummary tza nid user inputDate st = (Json 200 r, st') ->
  exists d index,
    findDiaryBetween user (startOfDay tza inputDate) (endOfDay tza inputDate) st
    = Some d /\
    findIndexC (hasEntryOnDay tza st inputDate)
               (summaryInfo (loadedSummary nid user st)) = Normal index /\
    let total := sumBy product_Calories (entries d) in
    let info := {| diaryId := diary_id d;
                   daily_left := (2800 - total)%Q;
                   daily_consumed := total;
                   daily_rate := 2800%Q;
                   percentage := toFixed2 (total / 2800 * 100)%Q |} in
    let saved := {| summary_id := summary_id (loadedSummary nid user st);
                    summary_userId := summary_userId (loadedSummary nid user st);
                    summaryInfo :=
                      putAt index info (summaryInfo (loadedSummary nid user st)) |} in
    r = {| response_date := inputDate;
           response_daily_left := daily_left info;
           response_daily_consumed := daily_consumed info;
           response_daily_rate := daily_rate info;
           response_percentage := percentage info |} /\
    st' = setSummaries (save summary_id saved (Summaries st)) st.
Proof.
  unfold getSummary.
  destruct (findDiaryBetween user _ _ st) as [d|]; [|discriminate].
  destruct (findIndexC _ _) as [index|]; [|discriminate].
  intros H. injection H as <- <-. exists d, index.
  repeat split; reflexivity.
Qed.

Lemma fold_sum_shift {A} (g : A -> Q) l (a : Q) :
  (fold_left (fun acc x => acc + g x) l a == a + sumBy g l)%Q.
Proof.
  unfold sumBy. revert a. induction l as [|x l IH]; intros a; cbn.
  - ring.
  - rewrite (IH (a + g x)%Q), (IH (0 + g x)%Q). ring.
Qed.

Lemma sumBy_cons {A} (g : A -> Q) x l : (sumBy g (x :: l) == g x + sumBy g l)%Q.
Proof. unfold sumBy at 1. cbn. rewrite fold_sum_shift. ring. Qed.

(** A sum over a list is the sum over the elements a test keeps plus the sum
    over those it drops. *)
Lemma sumBy_partition {A} (g : A -> Q) (f : A -> bool) l :
  (sumBy g l == sumBy g (List.filter f l)
                + sumBy g (List.filter (fun x => negb (f x)) l))%Q.
Proof.
  induction l as [|x l IH]; [reflexivity|].
  cbn [List.filter]. rewrite sumBy_cons, IH.
  destruct (f x); cbn [negb]; rewrite sumBy_cons; ring.
Qed.

(** C3 (the code does not do what the claim says): [daily_consumed] is the
    sum over every entry of the located diary, that is the calories of the
    entries dated in the requested range plus the calories of all the
    others; the claim is that the others contribute nothing. *)
Theorem getSummary_consumed_counts_every_entry tza nid user inputDate st r st' :
  getSummary tza nid user inputDate st = (Json 200 r, st') ->
  exists d,
    findDiaryBetween user (startOfDay tza inputDate) (endOfDay tza inputDate) st
    = Some d /\
    response_daily_consumed r = sumBy product_Calories (entries d) /\
    (response_daily_consumed r
     == Stated.consumedWithin (startOfDay tza inputDate) (endOfDay tza inputDate) d
        + Stated.consumedOutside (startOfDay tza inputDate) (endOfDay tza inputDate) d)%Q.
Proof.
  intros H. destruct (getSummary_ok _ _ _ _ _ _ _ H) as (d & index & Hd & _ & Hr & _).
  exists d. split; [exact Hd|]. cbn zeta in Hr. subst r. cbn [response_daily_consumed daily_consumed].
  split; [reflexivity|]. apply sumBy_partition.
Qed.

(** The diary has 342 kcal on 2024-09-11 and 171 kcal on 2024-09-12; the
    summary of 2024-09-12 reports 513 kcal consumed. *)
Lemma getSummary_consumed_counts_every_entry_witness :
  exists r st',
    getSummary 0 500%N Samples.user Samples.sep12
               (Samples.storeOf Samples.sep11AndSep12) = (Json 200 r, st') /\
    (response_daily_consumed r == 513)%Q /\
    (Stated.consumedWithin (startOfDay 0 Samples.sep12) (endOfDay 0 Samples.sep12)
                           (Samples.diaryOf Samples.sep11AndSep12) == 171)%Q /\
    (Stated.consumedOutside (startOfDay 0 Samples.sep12) (endOfDay 0 Samples.sep12)
                            (Samples.diaryOf Samples.sep11AndSep12) == 342)%Q.
Proof.
  destruct (getSummary_consumed_counts_every_entry
              0 500%N Samples.user Samples.sep12
              (Samples.storeOf Samples.sep11AndSep12) _ _ eq_refl)
    as (d & Hd & _ & Hsplit).
  vm_compute in Hd. injection Hd as <-.
  eexists. eexists. split; [reflexivity|].
  split; [refine (Qeq_trans _ _ _ Hsplit _)|split]; vm_compute; reflexivity.
Defined.

(** C4 (the code does not do what the claim says): summaries of days without
    entries.  In a process two hours east of UTC, the only entry is of 23:00
    UTC on 2024-09-11 and the summary of 2024-09-12 is answered 200 with its
    342 kcal.  In a process on UTC, the entries are of 2024-09-10 and
    2024-09-14 and the summary of 2024-09-12 is answered 200 with their
    513 kcal.  The claim is NotFound for both. *)
Theorem getSummary_of_a_day_without_entries :
  (forall e, In e Samples.lateSep11 ->
             ~ (Stated.startOfUTCDay Samples.sep12 <= date e
                <= Stated.endOfUTCDay Samples.sep12)) /\
  (exists r st',
      getSummary (Samples.hours 2) 500%N Samples.user Samples.sep12
                 (Samples.storeOf Samples.lateSep11) = (Json 200 r, st') /\
      (response_daily_consumed r == 342)%Q) /\
  (forall e, In e Samples.sep10AndSep14 ->
             ~ (Stated.startOfUTCDay Samples.sep12 <= date e
                <= Stated.endOfUTCDay Samples.sep12)) /\
  (exists r st',
      getSummary 0 500%N Samples.user Samples.sep12
                 (Samples.storeOf Samples.sep10AndSep14) = (Json 200 r, st') /\
      (response_daily_consumed r == 513)%Q).
Proof.
  split; [|split; [|split]].
  - intros e [<-|[]]. vm_compute. intros [H1 H2].
    (apply H1; reflexivity) || (apply H2; reflexivity).
  - eexists. eexists. split; vm_compute; reflexivity.
  - intros e [<-|[<-|[]]]; vm_compute; intros [H1 H2];
      (apply H1; reflexivity) || (apply H2; reflexivity).
  - eexists. eexists. split; vm_compute; reflexivity.
Qed.

(** C7: in every summary computed, [daily_left] is [daily_rate] minus
    [daily_consumed], so the two add up to the rate; when more was consumed
    than the rate allows, [daily_left] is negative and the answer is still
    the 200 of the hypothesis. *)
Theorem getSummary_daily_left tza nid user inputDate st r st' :
  getSummary tza nid user inputDate st = (Json 200 r, st') ->
  response_daily_left r = (response_daily_rate r - response_daily_consumed r)%Q /\
  (response_daily_consumed r + response_daily_left r == response_daily_rate r)%Q /\
  ((response_daily_rate r < response_daily_consumed r)%Q ->
   (response_daily_left r < 0)%Q).
Proof.
  intros H. destruct (getSummary_ok _ _ _ _ _ _ _ H) as (d & index & _ & _ & Hr & _).
  cbn zeta in Hr. subst r.
  cbn [response_daily_left response_daily_rate response_daily_consumed
       daily_left daily_rate daily_consumed].
  split; [reflexivity|]. split; [ring|]. intros Hover. lra.
Qed.

(** 3000 kcal consumed: 200 kcal over the rate, answered 200. *)
Lemma getSummary_daily_left_witness :
  exists r st',
    getSummary 0 500%N Samples.user Samples.sep12
               (Samples.storeOf Samples.overBudget) = (Json 200 r, st') /\
    (response_daily_consumed r + response_daily_left r == response_daily_rate r)%Q /\
    (response_daily_left r == -200)%Q.
Proof.
  destruct (getSummary_daily_left 0 500%N Samples.user Samples.sep12
              (Samples.storeOf Samples.overBudget) _ _ eq_refl)
    as (_ & Hsum & _).
  eexists. eexists. split; [reflexivity|]. split; [exact Hsum|].
  vm_compute. reflexivity.
Defined.




Lemma save_In {A} (id : A -> ObjectId) (doc : A) coll : In doc (save id doc coll).
Proof.
  induction coll as [|x coll IH]; cbn; [left; reflexivity|].
  destruct (N.eqb (id x) (id doc)); [left; reflexivity|right; exact IH].
Qed.





(** ** The summary history *)






End SummaryFacts.

(** ** The recommendations *)

Module RecommendationFacts.
Import Recommendations.

Lemma codeUnitCompare_total a b :
  codeUnitCompare a b <= 0 \/ codeUnitCompare b a <= 0.
Proof.
  unfold codeUnitCompare.
  destruct (String_as_OT.compare_spec a b) as [->|Hlt|Hgt]; [left; lia|left; lia|].
  right. unfold String_as_OT.lt in Hgt. rewrite Hgt. lia.
Qed.

Lemma codeUnitCompare_le a b :
  codeUnitCompare a b <= 0 <-> a = b \/ String_as_OT.lt a b.
Proof.
  unfold codeUnitCompare.
  destruct (String_as_OT.compare_spec a b) as [->|Hlt|Hgt]; split; intros H;
    try lia; try (left; reflexivity); try (right; assumption).
  exfalso. destruct H as [->|Hlt].
  - exact (StrictOrder_Irreflexive _ Hgt).
  - exact (StrictOrder_Irreflexive _ (StrictOrder_Transitive _ _ _ Hlt Hgt)).
Qed.

Lemma codeUnitCompare_trans a b c :
  codeUnitCompare a b <= 0 -> codeUnitCompare b c <= 0 -> codeUnitCompare a c <= 0.
Proof.
  rewrite !codeUnitCompare_le. intros [->|Hab] [->|Hbc]; auto.
  right. exact (StrictOrder_Transitive _ _ _ Hab Hbc).
Qed.

(** The blood types that have an index. *)
Lemma getBloodTypeIndex_canonical bloodType :
  In bloodType ["0(I)"; "A(II)"; "B(III)"; "AB(IV)"]%string ->
  0 <= getBloodTypeIndex bloodType <= 3.
Proof.
  intros [<-|[<-|[<-|[<-|[]]]]]; vm_compute; split; discriminate.
Qed.

Lemma getBloodTypeIndex_invalid bloodType :
  ~ In bloodType ["0(I)"; "A(II)"; "B(III)"; "AB(IV)"]%string ->
  getBloodTypeIndex bloodType = -1.
Proof.
  intros H. unfold getBloodTypeIndex, indexOf. cbn [indexOfFrom].
  repeat match goal with
         | |- context [String.eqb ?a bloodType] =>
             destruct (String.eqb_spec a bloodType) as [E|_];
             [exfalso; apply H; rewrite <- E; cbn; tauto|]
         end.
  reflexivity.
Qed.

Section Collation.

Variable localeCompare : string -> string -> Z.

Hypothesis localeCompare_total :
  forall a b, localeCompare a b <= 0 \/ localeCompare b a <= 0.
Hypothesis localeCompare_trans :
  forall a b c, localeCompare a b <= 0 -> localeCompare b c <= 0 ->
                localeCompare a c <= 0.

Lemma insert_Permutation a l : Permutation (insert localeCompare a l) (a :: l).
Proof.
  induction l as [|b l IH]; cbn; [reflexivity|].
  destruct (localeCompare (title a) (title b) <=? 0); [reflexivity|].
  rewrite IH. apply perm_swap.
Qed.

Lemma sort_Permutation l : Permutation (sort localeCompare l) l.
Proof.
  induction l as [|a l IH]; cbn; [reflexivity|].
  rewrite insert_Permutation, IH. reflexivity.
Qed.

Lemma insert_sorted a l :
  StronglySorted (byTitle localeCompare) l ->
  StronglySorted (byTitle localeCompare) (insert localeCompare a l).
Proof.
  induction l as [|b l IH]; intros Hl; cbn.
  - constructor; constructor.
  - apply StronglySorted_inv in Hl as [Hl Hb].
    destruct (localeCompare (title a) (title b) <=? 0) eqn:E.
    + constructor; [constructor; assumption|].
      constructor; [unfold byTitle; lia|].
      eapply Forall_impl; [exact Hb|].
      intros c Hc. unfold byTitle in *. apply (localeCompare_trans _ (title b)); lia.
    + constructor; [apply IH; exact Hl|].
      rewrite (insert_Permutation a l). constructor; [|exact Hb].
      unfold byTitle. destruct (localeCompare_total (title a) (title b)); lia.
Qed.

Lemma sort_sorted l : StronglySorted (byTitle localeCompare) (sort localeCompare l).
Proof.
  induction l as [|a l IH]; cbn; [constructor|apply insert_sorted; exact IH].
Qed.

(** C6: a request with all five fields and a canonical blood type is
    answered 200 by both routes, with the same recommendation.  Its
    [forbiddenProducts] are the products not allowed at the index of the
    blood type, cut to the first four in catalog order and then sorted:
    at most four products, ascending by title, and the same products as the
    first four not allowed ones. *)
Theorem forbiddenProducts_filter_slice_sort body bloodType st :
  missingField body = false ->
  body_blood_type body = Some bloodType ->
  In bloodType ["0(I)"; "A(II)"; "B(III)"; "AB(IV)"]%string ->
  exists r,
    publicRecommendations localeCompare body st = Json 200 r /\
    (forall newId user,
        fst (privateRecommendations localeCompare newId user body st) = Json 200 r) /\
    let firstFour :=
      take 4 (List.filter (notAllowed (getBloodTypeIndex bloodType)) (Products st)) in
    forbiddenProducts r = sort localeCompare firstFour /\
    Permutation (forbiddenProducts r) firstFour /\
    (List.length (forbiddenProducts r) <= 4)%nat /\
    response_length r = List.length (forbiddenProducts r) /\
    StronglySorted (byTitle localeCompare) (forbiddenProducts r).
Proof.
  intros Hfields Hbt Hcanon.
  pose proof (getBloodTypeIndex_canonical bloodType Hcanon) as Hidx.
  exists (recommendation localeCompare (Products st) (getBloodTypeIndex bloodType)).
  assert (Hne : (getBloodTypeIndex bloodType =? -1) = false) by lia.
  split; [|split].
  - unfold publicRecommendations. rewrite Hfields, Hbt, Hne. reflexivity.
  - intros newId user. unfold privateRecommendations. rewrite Hfields, Hbt.
    unfold missingField in Hfields. rewrite Hbt in Hfields.
    destruct (body_height body); [|discriminate Hfields].
    destruct (body_age body); [|cbn in Hfields; rewrite orb_true_r in Hfields; discriminate].
    destruct (body_current_weight body);
      [|cbn in Hfields; rewrite !orb_true_r in Hfields; discriminate].
    destruct (body_desired_weight body);
      [|cbn in Hfields; rewrite !orb_true_r in Hfields; discriminate].
    rewrite Hne. reflexivity.
  - cbn zeta. unfold recommendation, forbidden. cbn [forbiddenProducts response_length].
    split; [reflexivity|]. split; [apply sort_Permutation|].
    split; [|split; [reflexivity|apply sort_sorted]].
    rewrite (Permutation_length (sort_Permutation _)), length_take. lia.
Qed.

End Collation.

(** Six products, five of them not allowed: the first four of the five in
    catalog order are recommended against, sorted; "Apricot", the fifth, is
    left out although it sorts first. *)
Lemma forbiddenProducts_filter_slice_sort_witness :
  exists r,
    publicRecommendations codeUnitCompare Samples.profileA Samples.sixProducts
    = Json 200 r /\
    List.map title (forbiddenProducts r)
    = ["Buckwheat"; "Dill"; "Eggplant"; "Zucchini"]%string /\
    StronglySorted (byTitle codeUnitCompare) (forbiddenProducts r).
Proof.
  destruct (forbiddenProducts_filter_slice_sort
              codeUnitCompare codeUnitCompare_total codeUnitCompare_trans
              Samples.profileA "A(II)"%string Samples.sixProducts
              eq_refl eq_refl ltac:(right; left; reflexivity))
    as (r & Hpublic & _ & Hlist & _ & _ & _ & Hsorted).
  exists r. split; [exact Hpublic|]. split; [|exact Hsorted].
  rewrite Hlist. vm_compute. reflexivity.
Defined.

End RecommendationFacts.

(** ** Collections *)

Module StoreFacts.

(** A saved document that passes a filter is what [findOne] with that filter
    returns, when the document found before, if any, had its [_id]. *)
Lemma find_save_same {A} (id : A -> ObjectId) (f : A -> bool) doc coll :
  f doc = true ->
  match List.find f coll with
  | Some d0 => id d0 = id doc
  | None => True
  end ->
  List.find f (save id doc coll) = Some doc.
Proof.
  intros Hf. induction coll as [|x coll IH]; cbn [save List.find].
  - intros _. rewrite Hf. reflexivity.
  - destruct (N.eqb (id x) (id doc)) eqn:Eid; cbn [List.find].
    + intros _. rewrite Hf. reflexivity.
    + destruct (f x) eqn:Ex.
      * intros Hid. apply N.eqb_neq in Eid. contradiction.
      * exact IH.
Qed.

(** Saving a document that fails a filter, over documents that fail it too,
    does not change what [findOne] with that filter returns. *)
Lemma find_save_other {A} (id : A -> ObjectId) (f : A -> bool) doc coll :
  f doc = false ->
  (forall x, In x coll -> id x = id doc -> f x = false) ->
  List.find f (save id doc coll) = List.find f coll.
Proof.
  intros Hf. induction coll as [|x coll IH]; intros Hold; cbn [save List.find].
  - rewrite Hf. reflexivity.
  - destruct (N.eqb (id x) (id doc)) eqn:Eid; cbn [List.find].
    + apply N.eqb_eq in Eid. rewrite Hf, (Hold x (or_introl eq_refl) Eid). reflexivity.
    + destruct (f x); [reflexivity|].
      apply IH. intros y Hy. apply Hold. right. exact Hy.
Qed.

(** A document with a new [_id] is inserted at the end. *)
Lemma save_fresh {A} (id : A -> ObjectId) doc coll :
  ~ In (id doc) (List.map id coll) -> save id doc coll = coll ++ [doc].
Proof.
  induction coll as [|x coll IH]; intros Hfresh; cbn; [reflexivity|].
  destruct (N.eqb (id x) (id doc)) eqn:Eid.
  - apply N.eqb_eq in Eid. exfalso. apply Hfresh. left. exact Eid.
  - rewrite IH; [reflexivity|]. intros H. apply Hfresh. right. exact H.
Qed.

(** Among documents with distinct [_id]s, saving a new version of a stored
    document keeps every key the two versions share. *)
Lemma save_keeps_key {A B} (id : A -> ObjectId) (g : A -> B) doc old coll :
  NoDup (List.map id coll) -> In old coll -> id old = id doc -> g old = g doc ->
  List.map g (save id doc coll) = List.map g coll.
Proof.
  induction coll as [|x coll IH]; intros Hnd Hin Hid Hg; [destruct Hin|].
  cbn [save]. apply NoDup_cons in Hnd as [Hx Hnd]. cbn [List.map] in *.
  destruct (N.eqb (id x) (id doc)) eqn:Eid; cbn [List.map].
  - apply N.eqb_eq in Eid. destruct Hin as [->|Hin]; [rewrite Hg; reflexivity|].
    exfalso. apply Hx. apply list_elem_of_In. rewrite Eid, <- Hid.
    apply in_map. exact Hin.
  - destruct Hin as [->|Hin]; [apply N.eqb_neq in Eid; contradiction|].
    rewrite (IH Hnd Hin Hid Hg). reflexivity.
Qed.

(** In a list without two equal keys, two elements with one key are one. *)
Lemma NoDup_map_inj {A B} (g : A -> B) (l : list A) x y :
  NoDup (List.map g l) -> In x l -> In y l -> g x = g y -> x = y.
Proof.
  induction l as [|z l IH]; intros Hnd Hx Hy Hg; [destruct Hx|].
  cbn [List.map] in Hnd. apply NoDup_cons in Hnd as [Hz Hnd].
  destruct Hx as [->|Hx], Hy as [->|Hy].
  - reflexivity.
  - exfalso. apply Hz. apply list_elem_of_In. rewrite Hg. apply in_map. exact Hy.
  - exfalso. apply Hz. apply list_elem_of_In. rewrite <- Hg. apply in_map. exact Hx.
  - exact (IH Hnd Hx Hy Hg).
Qed.

Lemma find_none_key (user : ObjectId) (coll : list Diary) :
  List.find (fun d => N.eqb (diary_userId d) user) coll = None ->
  ~ In user (List.map diary_userId coll).
Proof.
  intros Hnone Hin. apply in_map_iff in Hin as (d & Hd & Hin).
  pose proof (find_none _ _ Hnone d Hin) as H. cbn in H.
  apply N.eqb_neq in H. contradiction.
Qed.

End StoreFacts.

(** ** The diary routes on a well-formed store *)

Module DiaryMore.
Import JSDate DiaryRoutes JSDateFacts StoreFacts.

(** Lists of distinct literals. *)
Ltac distinct :=
  cbn; repeat (apply NoDup_cons; split;
               [rewrite list_elem_of_In; cbn; intuition discriminate|]);
  apply NoDup_nil_2.

Lemma findDiary_found user st d :
  findDiary user st = Some d -> In d (Diaries st) /\ diary_userId d = user.
Proof.
  unfold findDiary, findOne. intros H. apply find_some in H as [Hin Hu].
  split; [exact Hin|]. apply N.eqb_eq. exact Hu.
Qed.

Lemma findDiaryBetween_found user lo hi st d :
  findDiaryBetween user lo hi st = Some d ->
  In d (Diaries st) /\ diary_userId d = user /\ entriesDateBetween lo hi d = true.
Proof.
  unfold findDiaryBetween, findOne. intros H. apply find_some in H as [Hin Hu].
  apply andb_prop in Hu as [Hu Hb].
  split; [exact Hin|]. split; [apply N.eqb_eq; exact Hu|exact Hb].
Qed.

(** What [POST /consumed] leaves in the store: the store it found, or that
    store with a new version of the diary it loaded. *)
Lemma postConsumed_store clk ids user body st :
  snd (postConsumed clk ids user body st) = st \/
  exists es,
    snd (postConsumed clk ids user body st)
    = setDiaries
        (save diary_id {| diary_id := diary_id (loadedDiary ids user st);
                          diary_userId := diary_userId (loadedDiary ids user st);
                          entries := es |} (Diaries st)) st.
Proof.
  unfold postConsumed.
  destruct (falsyId _ || falsyNum _); [left; reflexivity|].
  destruct (body_productId body); [|left; reflexivity].
  destruct (body_product_weight body); [|left; reflexivity].
  destruct (findById _ _); [|left; reflexivity].
  destruct (findIndexC _ _); [|left; reflexivity].
  right. eexists. reflexivity.
Qed.

(** What [DELETE /remove] leaves in the store: the store it found, or that
    store with a new version of a diary of the user that was in it. *)
Lemma removeConsumed_store user inputDate param st :
  snd (removeConsumed user inputDate param st) = st \/
  exists d es,
    In d (Diaries st) /\ diary_userId d = user /\
    snd (removeConsumed user inputDate param st)
    = setDiaries
        (save diary_id {| diary_id := diary_id d; diary_userId := diary_userId d;
                          entries := es |} (Diaries st)) st.
Proof.
  unfold removeConsumed.
  destruct (findDiaryBetween user _ _ st) as [d|] eqn:E; [|left; reflexivity].
  destruct (_ =? -1); [left; reflexivity|].
  apply findDiaryBetween_found in E as (Hin & Hu & _).
  right. exists d. eexists. repeat split; assumption.
Qed.

Lemma save_version_keeps d es st :
  Invariants.oneDiaryPerUser st -> In d (Diaries st) ->
  Invariants.oneDiaryPerUser
    (setDiaries (save diary_id {| diary_id := diary_id d;
                                  diary_userId := diary_userId d;
                                  entries := es |} (Diaries st)) st).
Proof.
  intros [Hid Hu] Hin. unfold Invariants.oneDiaryPerUser. cbn [Diaries setDiaries].
  rewrite (save_keeps_key diary_id diary_id _ d), (save_keeps_key diary_id diary_userId _ d);
    try assumption; try reflexivity.
  split; assumption.
Qed.

(** X1: the two routes that write diaries keep the store well-formed:
    distinct diary ids and at most one diary per user, provided the id given
    to a diary created by [POST /consumed] is not in use. *)
Theorem diary_routes_keep_one_diary_per_user st :
  Invariants.oneDiaryPerUser st ->
  (forall clk ids user body,
      ~ In (newDiaryId ids) (List.map diary_id (Diaries st)) ->
      Invariants.oneDiaryPerUser (snd (postConsumed clk ids user body st))) /\
  (forall user inputDate param,
      Invariants.oneDiaryPerUser (snd (removeConsumed user inputDate param st))).
Proof.
  intros Hwf. split.
  - intros clk ids user body Hfresh.
    destruct (postConsumed_store clk ids user body st) as [->|[es ->]]; [exact Hwf|].
    unfold loadedDiary. destruct (findDiary user st) as [d|] eqn:E.
    + apply findDiary_found in E as [Hin _]. apply save_version_keeps; assumption.
    + destruct Hwf as [Hid Hu]. unfold Invariants.oneDiaryPerUser.
      cbn [Diaries setDiaries diary_id diary_userId].
      rewrite save_fresh by exact Hfresh. rewrite !map_app. cbn [List.map diary_id diary_userId].
      split; apply NoDup_app; (split; [assumption|]); (split; [|apply NoDup_singleton]).
      * intros x Hx Hx'. apply list_elem_of_singleton in Hx'. subst x.
        apply Hfresh. apply list_elem_of_In. exact Hx.
      * intros x Hx Hx'. apply list_elem_of_singleton in Hx'. subst x.
        apply (find_none_key user (Diaries st) E). apply list_elem_of_In. exact Hx.
  - intros user inputDate param.
    destruct (removeConsumed_store user inputDate param st)
      as [->|(d & es & Hin & _ & ->)]; [exact Hwf|].
    apply save_version_keeps; assumption.
Qed.

(** A store with two users' diaries stays well-formed through a log and a
    removal. *)
Lemma diary_routes_keep_one_diary_per_user_witness :
  Invariants.oneDiaryPerUser
    (snd (postConsumed (instant Samples.sep12) {| newDiaryId := 300%N; newEntryId := 301%N |}
                       9%N (Samples.consume 50) MoreSamples.twoUsers)) /\
  Invariants.oneDiaryPerUser
    (snd (removeConsumed Samples.user Samples.sep12 (oidToString 2%N) MoreSamples.twoUsers)).
Proof.
  assert (Hwf : Invariants.oneDiaryPerUser MoreSamples.twoUsers).
  { split; distinct. }
  destruct (diary_routes_keep_one_diary_per_user MoreSamples.twoUsers Hwf) as [Hpost Hremove].
  split; [apply Hpost|apply Hremove].
  cbn. intros [H|[H|[]]]; discriminate.
Defined.

(** X2: among diaries with distinct ids, a log or a removal by one user
    leaves the diary of every other user as it was. *)
Theorem diary_routes_leave_other_users other st :
  NoDup (List.map diary_id (Diaries st)) ->
  (forall clk ids user body,
      user <> other ->
      ~ In (newDiaryId ids) (List.map diary_id (Diaries st)) ->
      findDiary other (snd (postConsumed clk ids user body st)) = findDiary other st) /\
  (forall user inputDate param,
      user <> other ->
      findDiary other (snd (removeConsumed user inputDate param st)) = findDiary other st).
Proof.
  intros Hid.
  assert (Hversion : forall user d es,
             user <> other -> In d (Diaries st) -> diary_userId d = user ->
             findDiary other
               (setDiaries (save diary_id {| diary_id := diary_id d;
                                             diary_userId := diary_userId d;
                                             entries := es |} (Diaries st)) st)
             = findDiary other st).
  { intros user d es Hne Hin Hu. unfold findDiary, findOne. cbn [Diaries setDiaries].
    apply find_save_other; cbn [diary_userId diary_id].
    - apply N.eqb_neq. congruence.
    - intros x Hx Hsame. rewrite (NoDup_map_inj diary_id _ x d Hid Hx Hin Hsame).
      apply N.eqb_neq. congruence. }
  split.
  - intros clk ids user body Hne Hfresh.
    destruct (postConsumed_store clk ids user body st) as [->|[es ->]]; [reflexivity|].
    unfold loadedDiary. destruct (findDiary user st) as [d|] eqn:E.
    + apply findDiary_found in E as [Hin Hu]. exact (Hversion user d es Hne Hin Hu).
    + unfold findDiary, findOne. cbn [Diaries setDiaries].
      apply find_save_other; cbn [diary_userId diary_id].
      * apply N.eqb_neq. exact Hne.
      * intros x Hx Hsame. exfalso. apply Hfresh. rewrite <- Hsame.
        apply in_map. exact Hx.
  - intros user inputDate param Hne.
    destruct (removeConsumed_store user inputDate param st)
      as [->|(d & es & Hin & Hu & ->)]; [reflexivity|].
    exact (Hversion user d es Hne Hin Hu).
Qed.

(** The sample user logs and removes; the other user's diary is the same. *)
Lemma diary_routes_leave_other_users_witness :
  findDiary MoreSamples.otherUser
    (snd (postConsumed (instant Samples.sep12) {| newDiaryId := 300%N; newEntryId := 301%N |}
                       Samples.user (Samples.consume 50) MoreSamples.twoUsers))
  = findDiary MoreSamples.otherUser MoreSamples.twoUsers /\
  findDiary MoreSamples.otherUser
    (snd (removeConsumed Samples.user Samples.sep12 (oidToString 2%N) MoreSamples.twoUsers))
  = findDiary MoreSamples.otherUser MoreSamples.twoUsers.
Proof.
  assert (Hid : NoDup (List.map diary_id (Diaries MoreSamples.twoUsers)))
    by distinct.
  destruct (diary_routes_leave_other_users MoreSamples.otherUser MoreSamples.twoUsers Hid)
    as [Hpost Hremove].
  split; [apply Hpost|apply Hremove]; try discriminate.
  cbn. intros [H|[H|[]]]; discriminate.
Defined.

(** The diary a successful [POST /consumed] answers with is the diary
    [Diary.findOne({ userId })] returns from then on. *)
Lemma postConsumed_saved clk ids user body st d st' :
  postConsumed clk ids user body st = (Json 201 d, st') ->
  findDiary user st' = Some d /\ In d (Diaries st') /\ diary_userId d = user /\
  Products st' = Products st.
Proof.
  intros H.
  destruct (DiaryFacts.postConsumed_pushes _ _ _ _ _ _ _ H)
    as (pid & w & product & _ & _ & _ & _ & Hst).
  assert (Hd : diary_id d = diary_id (loadedDiary ids user st) /\
               diary_userId d = diary_userId (loadedDiary ids user st)).
  { unfold postConsumed in H.
    destruct (falsyId _ || falsyNum _); [discriminate|].
    destruct (body_productId body); [|discriminate].
    destruct (body_product_weight body); [|discriminate].
    destruct (findById _ _); [|discriminate].
    destruct (findIndexC _ _); [|discriminate].
    injection H as <- _. split; reflexivity. }
  destruct Hd as [Hdid Hdu].
  assert (Hu : diary_userId d = user).
  { rewrite Hdu. unfold loadedDiary. destruct (findDiary user st) as [d0|] eqn:E.
    - apply findDiary_found in E as [_ E]. exact E.
    - reflexivity. }
  subst st'. cbn [Products setDiaries]. unfold findDiary, findOne. cbn [Diaries setDiaries].
  split; [|split; [apply SummaryFacts.save_In|split; [exact Hu|reflexivity]]].
  apply find_save_same.
  - apply N.eqb_eq. exact Hu.
  - rewrite Hdid. unfold loadedDiary, findDiary, findOne.
    destruct (List.find _ (Diaries st)); [reflexivity|exact I].
Qed.

(** In a process on UTC the test of [GET /consumed] is the equality of the
    UTC days. *)
Lemma sameDay_utc t inputDate :
  bool_decide (toDateString 0 t = toDateString 0 inputDate)
  = (Day t =? Day inputDate).
Proof.
  destruct (Day t =? Day inputDate) eqn:E.
  - apply Z.eqb_eq in E. apply bool_decide_eq_true.
    apply DiaryFacts.toDateString_utc, isoDatePart_inj. exact E.
  - apply Z.eqb_neq in E. apply bool_decide_eq_false. intros H. apply E.
    apply isoDatePart_inj, DiaryFacts.toDateString_utc. exact H.
Qed.

Lemma filter_sameDay_utc inputDate d :
  List.filter (fun entry => bool_decide (toDateString 0 (date entry)
                                         = toDateString 0 inputDate)) (entries d)
  = Invariants.entriesOfDay inputDate d.
Proof.
  unfold Invariants.entriesOfDay. apply filter_ext. intros e. apply sameDay_utc.
Qed.

(** An entry of the requested UTC day is in the window of the query. *)
Lemma day_in_window inputDate t :
  0 <= inputDate -> Day t = Day inputDate ->
  startDate inputDate <= t <= endDate inputDate.
Proof.
  intros Hd Hday. destruct (DiaryFacts.window_two_days inputDate Hd) as [-> ->].
  pose proof (Day_bounds t) as Hb. rewrite Hday in Hb. unfold msPerDay in *. lia.
Qed.

(** X3: in a process on UTC, with one diary per user, [GET /consumed/:date]
    for a date at or after the epoch lists the entries of the user's diary
    dated on the requested UTC day, all of them and no others, in the order
    of the diary; a user without a diary gets the empty list. *)
Theorem getConsumed_utc_lists_the_day user inputDate st :
  0 <= inputDate ->
  NoDup (List.map diary_userId (Diaries st)) ->
  getConsumed 0 user inputDate st
  = Json 200 (inputDate,
              match findDiary user st with
              | Some d => Invariants.entriesOfDay inputDate d
              | None => []
              end).
Proof.
  intros Hdate Hu. unfold getConsumed.
  destruct (findDiaryBetween user _ _ st) as [d'|] eqn:Eb.
  - apply findDiaryBetween_found in Eb as (Hin' & Hu' & _).
    destruct (findDiary user st) as [d|] eqn:E.
    + apply findDiary_found in E as [Hin Hud].
      assert (d' = d) by (apply (NoDup_map_inj diary_userId _ d' d Hu Hin' Hin); congruence).
      subst d'. rewrite filter_sameDay_utc.
      destruct (entries d) as [|e es] eqn:Ees; cbn [List.length Nat.eqb].
      * unfold Invariants.entriesOfDay. rewrite Ees. reflexivity.
      * reflexivity.
    + exfalso. unfold findDiary, findOne in E.
      pose proof (find_none _ _ E d' Hin') as H. cbn in H.
      apply N.eqb_neq in H. contradiction.
  - destruct (findDiary user st) as [d|] eqn:E; [|reflexivity].
    f_equal. f_equal. symmetry. unfold Invariants.entriesOfDay.
    destruct (List.filter _ (entries d)) as [|e es] eqn:Ef; [reflexivity|].
    exfalso.
    assert (He : In e (List.filter (fun e => Day (date e) =? Day inputDate) (entries d)))
      by (rewrite Ef; left; reflexivity).
    apply filter_In in He as [He Hday].
    unfold findDiaryBetween, findOne in Eb. unfold findDiary, findOne in E.
    rewrite (DiaryFacts.find_refine _ (entriesDateBetween (startDate inputDate)
                                         (endDate inputDate)) _ d E) in Eb;
      [discriminate|].
    apply (DiaryFacts.entriesDateBetween_intro _ _ d e He).
    apply day_in_window; [exact Hdate|lia].
Qed.

(** The diary of 2024-09-11 and 2024-09-12, asked for 2024-09-12. *)
Lemma getConsumed_utc_lists_the_day_witness :
  getConsumed 0 Samples.user Samples.sep12 MoreSamples.twoUsers
  = Json 200 (Samples.sep12, [Samples.entryAt 2%N 171 (Samples.sep12 + Samples.hours 9)]).
Proof.
  refine (eq_trans (getConsumed_utc_lists_the_day
                      Samples.user Samples.sep12 MoreSamples.twoUsers _ _) _).
  - vm_compute. discriminate.
  - distinct.
  - reflexivity.
Defined.

(** X4: whatever the timezone, [GET /consumed/:date] lists only entries of
    diaries of the requesting user, each dated on the requested local day. *)
Theorem getConsumed_lists_own_entries tza user inputDate st l e :
  getConsumed tza user inputDate st = Json 200 (inputDate, l) ->
  In e l ->
  toDateString tza (date e) = toDateString tza inputDate /\
  exists d, In d (Diaries st) /\ diary_userId d = user /\ In e (entries d).
Proof.
  unfold getConsumed.
  destruct (findDiaryBetween user _ _ st) as [d|] eqn:Eb.
  - apply findDiaryBetween_found in Eb as (Hin & Hu & _).
    destruct (_ =? _)%nat; intros H; injection H as <-; intros He; [destruct He|].
    apply filter_In in He as [He Hday]. apply bool_decide_eq_true in Hday.
    split; [exact Hday|]. exists d. repeat split; assumption.
  - intros H. injection H as <-. intros [].
Qed.

Lemma getConsumed_lists_own_entries_witness :
  toDateString (Samples.hours 2) (Samples.sep12 + Samples.hours 9)
  = toDateString (Samples.hours 2) Samples.sep12 /\
  exists d, In d (Diaries MoreSamples.twoUsers) /\ diary_userId d = Samples.user /\
            In (Samples.entryAt 2%N 171 (Samples.sep12 + Samples.hours 9)) (entries d).
Proof.
  exact (getConsumed_lists_own_entries (Samples.hours 2) Samples.user Samples.sep12
           MoreSamples.twoUsers
           [Samples.entryAt 2%N 171 (Samples.sep12 + Samples.hours 9)]
           (Samples.entryAt 2%N 171 (Samples.sep12 + Samples.hours 9))
           eq_refl (or_introl eq_refl)).
Defined.

(** X5: read your write.  In a process on UTC, after a successful
    [POST /consumed], [GET /consumed] for the UTC day of the entry's
    timestamp lists the entry logged, last among the entries of that day. *)
Theorem postConsumed_then_getConsumed_utc clk ids user body st d st' inputDate :
  postConsumed clk ids user body st = (Json 201 d, st') ->
  0 <= inputDate -> Day (readStamp clk) = Day inputDate ->
  exists pid w product,
    body_productId body = Some pid /\ body_product_weight body = Some w /\
    findById pid (Products st) = Some product /\
    getConsumed 0 user inputDate st'
    = Json 200
        (inputDate,
         Invariants.entriesOfDay inputDate (loadedDiary ids user st)
         ++ [{| entry_id := newEntryId ids; productId := pid; product_weight := w;
                product_Calories := (calories product * w / 100)%Q;
                date := readStamp clk |}]).
Proof.
  intros H Hdate Hday.
  destruct (DiaryFacts.postConsumed_pushes _ _ _ _ _ _ _ H)
    as (pid & w & product & Hpid & Hw & Hp & He & _).
  destruct (postConsumed_saved _ _ _ _ _ _ _ H) as (Hfind & _ & _ & _).
  exists pid, w, product. repeat (split; [assumption|]).
  set (e := {| entry_id := newEntryId ids; productId := pid; product_weight := w;
               product_Calories := (calories product * w / 100)%Q;
               date := readStamp clk |}) in *.
  assert (Hin : In e (entries d)) by (rewrite He; apply in_or_app; right; left; reflexivity).
  unfold getConsumed, findDiaryBetween, findOne. unfold findDiary, findOne in Hfind.
  rewrite (DiaryFacts.find_refine _ (entriesDateBetween (startDate inputDate)
                                       (endDate inputDate)) _ d Hfind);
    [|apply (DiaryFacts.entriesDateBetween_intro _ _ d e Hin);
      apply day_in_window; assumption].
  rewrite filter_sameDay_utc. unfold Invariants.entriesOfDay.
  rewrite He, length_app, List.filter_app. cbn [List.length List.filter date e].
  replace (Day (readStamp clk) =? Day inputDate) with true by lia.
  replace (List.length (entries (loadedDiary ids user st)) + 1 =? 0)%nat with false
    by (symmetry; apply Nat.eqb_neq; lia).
  reflexivity.
Qed.

(** 50 g logged at 18:30 UTC of 2024-09-12 into the diary of 2024-09-11 and
    2024-09-12: the list of 2024-09-12 ends with the new entry. *)
Lemma postConsumed_then_getConsumed_utc_witness :
  let e := {| entry_id := 301%N; productId := 1%N; product_weight := 50;
              product_Calories := 342 * 50 / 100;
              date := Samples.sep12 + Samples.hours 18 + Samples.minutes 30 |} in
  let d := Samples.diaryOf (Samples.sep11AndSep12 ++ [e]) in
  let st' := setDiaries (save diary_id d (Diaries MoreSamples.twoUsers))
                        MoreSamples.twoUsers in
  postConsumed (instant (Samples.sep12 + Samples.hours 18 + Samples.minutes 30))
               {| newDiaryId := 300%N; newEntryId := 301%N |}
               Samples.user (Samples.consume 50) MoreSamples.twoUsers
  = (Json 201 d, st') /\
  getConsumed 0 Samples.user Samples.sep12 st'
  = Json 200 (Samples.sep12,
              [Samples.entryAt 2%N 171 (Samples.sep12 + Samples.hours 9); e]).
Proof.
  intros e d st'.
  assert (E : postConsumed (instant (Samples.sep12 + Samples.hours 18 + Samples.minutes 30))
                           {| newDiaryId := 300%N; newEntryId := 301%N |}
                           Samples.user (Samples.consume 50) MoreSamples.twoUsers
              = (Json 201 d, st')) by (vm_compute; reflexivity).
  split; [exact E|].
  destruct (postConsumed_then_getConsumed_utc _ _ _ _ _ _ _ Samples.sep12 E
              ltac:(vm_compute; discriminate) ltac:(vm_compute; reflexivity))
    as (pid & w & product & Hpid & Hw & Hp & Hget).
  vm_compute in Hpid, Hw. injection Hpid as <-. injection Hw as <-.
  vm_compute in Hp. injection Hp as <-.
  rewrite Hget. vm_compute. reflexivity.
Defined.

Lemma findIndexFromC_throws {A} (f : A -> Completion bool) l i e :
  (forall x, f x = Throw \/ f x = Normal false) ->
  In e l -> f e = Throw -> findIndexFromC f l i = Throw.
Proof.
  intros Hf. revert i. induction l as [|x l IH]; intros i Hin He; [destruct Hin|].
  cbn. destruct (Hf x) as [->| Hx]; [reflexivity|]. rewrite Hx.
  destruct Hin as [->|Hin]; [congruence|]. apply IH; assumption.
Qed.

(** X6: once the user's diary holds an entry whose product has left the
    catalog, every [POST /consumed] of that user with a well-formed body and
    a known product is answered 500 and stores nothing. *)
Theorem postConsumed_after_product_left clk ids user pid w product st e :
  ~ (w == 0)%Q ->
  findById pid (Products st) = Some product ->
  In e (entries (loadedDiary ids user st)) ->
  findById (productId e) (Products st) = None ->
  postConsumed clk ids user
               {| body_productId := Some pid; body_product_weight := Some w |} st
  = (Message 500 "Error adding/updating consumed product", st).
Proof.
  intros Hw Hp Hin Hgone. unfold postConsumed. cbn [body_productId body_product_weight
                                                     falsyId falsyNum orb].
  destruct (Qeq_bool w 0) eqn:E; [apply Qeq_bool_iff in E; contradiction|].
  rewrite Hp. unfold findIndexC.
  rewrite (findIndexFromC_throws _ _ 0 e (DiaryFacts.sameProductToday_rejects st pid (today clk)) Hin);
    [reflexivity|].
  unfold sameProductToday, populate. rewrite Hgone. reflexivity.
Qed.

Lemma postConsumed_after_product_left_witness :
  postConsumed (instant Samples.sep12) {| newDiaryId := 300%N; newEntryId := 301%N |}
               Samples.user (Samples.consume 150) MoreSamples.danglingStore
  = (Message 500 "Error adding/updating consumed product", MoreSamples.danglingStore).
Proof.
  apply (postConsumed_after_product_left _ _ _ _ _ Samples.omelet _ MoreSamples.danglingEntry).
  - intros H. vm_compute in H. discriminate H.
  - reflexivity.
  - left. reflexivity.
  - reflexivity.
Defined.

(** What [findIndex] returns, for a callback that does not throw. *)
Lemma findIndexFrom_spec {A} (f : A -> bool) l :
  forall k,
    (findIndexFrom f l k = -1 /\ forall x, In x l -> f x = false) \/
    (exists n x, findIndexFrom f l k = k + Z.of_nat n /\ l !! n = Some x /\
                 f x = true /\
                 forall j w, (j < n)%nat -> l !! j = Some w -> f w = false).
Proof.
  induction l as [|x l IH]; intros k; cbn.
  - left. split; [reflexivity|intros x []].
  - destruct (f x) eqn:Ex.
    + right. exists 0%nat, x. repeat split; [lia|exact Ex|]. intros j w Hj. lia.
    + destruct (IH (k + 1)) as [[-> Hall]|(n & y & -> & Hn & Hy & Hbefore)].
      * left. split; [reflexivity|]. intros z [<-|Hz]; [exact Ex|exact (Hall z Hz)].
      * right. exists (S n), y. repeat split; [lia|exact Hn|exact Hy|].
        intros [|j] w Hj Hw; cbn in Hw.
        -- injection Hw as <-. exact Ex.
        -- apply (Hbefore j w); [lia|exact Hw].
Qed.

(** X7: [DELETE /remove] answers 404 and leaves the store as it was when no
    entry in the diaries of the user has the [_id] asked for; this covers the
    user without a diary. *)
Theorem removeConsumed_unknown_entry user inputDate param st :
  (forall d e, In d (Diaries st) -> diary_userId d = user -> In e (entries d) ->
               oidToString (entry_id e) <> param) ->
  NotFound (fst (removeConsumed user inputDate param st)) /\
  snd (removeConsumed user inputDate param st) = st.
Proof.
  intros Hnone. unfold removeConsumed.
  destruct (findDiaryBetween user _ _ st) as [d|] eqn:E; [|split; reflexivity].
  apply findDiaryBetween_found in E as (Hin & Hu & _).
  destruct (findIndexFrom_spec
              (fun entry => String.eqb (oidToString (entry_id entry)) param)
              (entries d) 0) as [[Hidx _]|(n & x & _ & Hn & Hx & _)].
  - unfold findIndex. rewrite Hidx. split; reflexivity.
  - exfalso. apply String.eqb_eq in Hx.
    apply (Hnone d x Hin Hu); [|exact Hx].
    apply list_elem_of_In, list_elem_of_lookup. exists n. exact Hn.
Qed.

Lemma removeConsumed_unknown_entry_witness :
  NotFound (fst (removeConsumed Samples.user Samples.sep12 (oidToString 9%N)
                                MoreSamples.twoUsers)) /\
  snd (removeConsumed Samples.user Samples.sep12 (oidToString 9%N) MoreSamples.twoUsers)
  = MoreSamples.twoUsers.
Proof.
  apply removeConsumed_unknown_entry.
  intros d e [<-|[<-|[]]] Hu; [|discriminate Hu].
  intros [<-|[<-|[]]]; vm_compute; discriminate.
Defined.



Lemma delete_last {A} (l : list A) x : delete (List.length l) (l ++ [x]) = l.
Proof.
  induction l as [|y l IH]; [reflexivity|].
  change (y :: delete (List.length l) (l ++ [x]) = y :: l). f_equal. exact IH.
Qed.

(** X9: log, then remove.  After a successful [POST /consumed] whose entry
    got an [_id] no other entry of the diary has, [DELETE /remove] with that
    [_id], for a date whose window holds the entry's timestamp, is answered
    200 and the user's diary holds the entries it held before the log. *)
Theorem postConsumed_then_removeConsumed clk ids user body st d st' inputDate :
  postConsumed clk ids user body st = (Json 201 d, st') ->
  (forall e, In e (entries (loadedDiary ids user st)) ->
             oidToString (entry_id e) <> oidToString (newEntryId ids)) ->
  0 <= inputDate ->
  Day inputDate <= Day (readStamp clk) <= Day inputDate + 1 ->
  exists d2 st2,
    removeConsumed user inputDate (oidToString (newEntryId ids)) st'
    = (Json 200 d2, st2) /\
    entries d2 = entries (loadedDiary ids user st) /\
    findDiary user st2 = Some d2.
Proof.
  intros H Hfresh Hdate Hday.
  destruct (DiaryFacts.postConsumed_pushes _ _ _ _ _ _ _ H)
    as (pid & w & product & _ & _ & _ & He & _).
  destruct (postConsumed_saved _ _ _ _ _ _ _ H) as (Hfind & _ & Hu & _).
  set (old := entries (loadedDiary ids user st)) in *.
  set (e := {| entry_id := newEntryId ids; productId := pid; product_weight := w;
               product_Calories := (calories product * w / 100)%Q;
               date := readStamp clk |}) in *.
  assert (Hin : In e (entries d)) by (rewrite He; apply in_or_app; right; left; reflexivity).
  assert (Hwin : startDate inputDate <= date e <= endDate inputDate).
  { destruct (DiaryFacts.window_two_days inputDate Hdate) as [-> ->].
    pose proof (Day_bounds (readStamp clk)) as Hb. cbn [date e].
    unfold msPerDay in *. nia. }
  unfold removeConsumed, findDiaryBetween, findOne.
  pose proof Hfind as Hfind'. unfold findDiary, findOne in Hfind'.
  rewrite (DiaryFacts.find_refine _ (entriesDateBetween (startDate inputDate)
                                       (endDate inputDate)) _ d Hfind');
    [|exact (DiaryFacts.entriesDateBetween_intro _ _ d e Hin Hwin)].
  unfold findIndex.
  rewrite (DiaryFacts.findIndexFrom_first _ (entries d) 0 (List.length old) e).
  - replace (0 + Z.of_nat (List.length old) =? -1) with false by lia.
    replace (Z.to_nat (0 + Z.of_nat (List.length old))) with (List.length old) by lia.
    do 2 eexists. split; [reflexivity|]. cbn [entries].
    split; [rewrite He; apply delete_last|].
    unfold findDiary, findOne. cbn [Diaries setDiaries].
    apply find_save_same; cbn [diary_userId diary_id].
    + apply N.eqb_eq. exact Hu.
    + rewrite Hfind'. reflexivity.
  - rewrite He. rewrite lookup_app_r by reflexivity.
    replace (List.length old - List.length old)%nat with 0%nat by lia. reflexivity.
  - apply String.eqb_eq. reflexivity.
  - intros j x Hj Hx. apply String.eqb_neq. apply Hfresh.
    rewrite He in Hx. rewrite lookup_app_l in Hx by exact Hj.
    apply list_elem_of_In, list_elem_of_lookup. exists j. exact Hx.
Qed.

Lemma postConsumed_then_removeConsumed_witness :
  exists d st' d2 st2,
    postConsumed (instant (Samples.sep12 + Samples.hours 18))
                 {| newDiaryId := 300%N; newEntryId := 301%N |}
                 Samples.user (Samples.consume 50) MoreSamples.twoUsers
    = (Json 201 d, st') /\
    removeConsumed Samples.user Samples.sep12 (oidToString 301%N) st' = (Json 200 d2, st2) /\
    entries d2 = Samples.sep11AndSep12.
Proof.
  destruct (postConsumed_then_removeConsumed
              (instant (Samples.sep12 + Samples.hours 18))
              {| newDiaryId := 300%N; newEntryId := 301%N |}
              Samples.user (Samples.consume 50) MoreSamples.twoUsers _ _ Samples.sep12
              eq_refl
              ltac:(intros e [<-|[<-|[]]]; vm_compute; discriminate)
              ltac:(vm_compute; discriminate)
              ltac:(vm_compute; split; discriminate))
    as (d2 & st2 & Hremove & Hentries & _).
  do 4 eexists. split; [reflexivity|]. split; [exact Hremove|exact Hentries].
Defined.

(** X10: a successful [POST /consumed] answers with the diary it stored; the
    diary has one entry more than before, and its last entry is the one
    logged: the product and weight of the body, the timestamp of the clock,
    and the product's calories per 100 times the weight, divided by 100. *)
Theorem postConsumed_logs_entry clk ids user body st d st' :
  postConsumed clk ids user body st = (Json 201 d, st') ->
  exists pid w product e,
    body_productId body = Some pid /\ body_product_weight body = Some w /\
    findById pid (Products st) = Some product /\
    findDiary user st' = Some d /\
    List.length (entries d) = S (List.length (entries (loadedDiary ids user st))) /\
    last (entries d) = Some e /\
    productId e = pid /\ product_weight e = w /\ date e = readStamp clk /\
    (product_Calories e == calories product * w / 100)%Q.
Proof.
  intros H.
  destruct (DiaryFacts.postConsumed_pushes _ _ _ _ _ _ _ H)
    as (pid & w & product & Hpid & Hw & Hp & He & _).
  destruct (postConsumed_saved _ _ _ _ _ _ _ H) as (Hfind & _).
  exists pid, w, product. eexists.
  repeat (split; [eassumption|]).
  rewrite He, length_app, last_snoc. cbn.
  repeat split; try reflexivity. lia.
Qed.

(** 150 g of a product of 342 kcal per 100 g: 513 kcal. *)
Lemma postConsumed_logs_entry_witness :
  exists d st' e,
    Samples.logged150 = (Json 201 d, st') /\
    last (entries d) = Some e /\ (product_Calories e == 513)%Q.
Proof.
  destruct (postConsumed_logs_entry
              (instant (Samples.sep12 + Samples.hours 10))
              {| newDiaryId := 100%N; newEntryId := 101%N |}
              Samples.user (Samples.consume 150) Samples.catalog _ _ eq_refl)
    as (pid & w & product & e & Hpid & Hw & Hp & _ & _ & Hlast & _ & _ & _ & Hcal).
  vm_compute in Hpid, Hw. injection Hpid as <-. injection Hw as <-.
  vm_compute in Hp. injection Hp as <-.
  do 2 eexists. exists e. split; [reflexivity|]. split; [exact Hlast|].
  rewrite Hcal. vm_compute. reflexivity.
Defined.

End DiaryMore.

(** ** More on the daily summary *)

Module SummaryMore.
Import JSDate DiaryRoutes SummaryRoutes JSDateFacts StoreFacts.

Lemma findDiaryBetween_found_summary user lo hi st d :
  findDiaryBetween user lo hi st = Some d -> In d (Diaries st).
Proof.
  unfold findDiaryBetween, findOne. intros H. apply find_some in H as [Hin _]. exact Hin.
Qed.

Lemma hundredths_nonneg x : 0 <= Qfloor (Qabs x * 100 + (1 # 2))%Q.
Proof.
  rewrite <- (Qfloor_Z 0). apply Qfloor_resp_le.
  pose proof (Qabs_nonneg x). change (inject_Z 0) with 0%Q. lra.
Qed.

Lemma Qle_bool_false x : Qle_bool 0 x = false -> (x < 0)%Q.
Proof.
  intros H. apply Qnot_le_lt. intros Hle. apply Qle_bool_iff in Hle. congruence.
Qed.

Lemma hundredths_le (a b : Z) : a <= b -> (a # 100 <= b # 100)%Q.
Proof. intros H. unfold Qle. cbn. lia. Qed.

Lemma hundredths_opp_le (a b : Z) : a <= b -> (- (b # 100) <= - (a # 100))%Q.
Proof. intros H. unfold Qle. cbn. lia. Qed.

Lemma hundredths_signs (a b : Z) : 0 <= a -> 0 <= b -> (- (a # 100) <= b # 100)%Q.
Proof. intros Ha Hb. unfold Qle. cbn. lia. Qed.

(** [toFixed(2)] is monotone: a larger number never prints as a smaller
    numeral. *)
Lemma toFixed2_monotone x y :
  (x <= y)%Q -> (value (toFixed2 x) <= value (toFixed2 y))%Q.
Proof.
  intros Hxy. unfold value, toFixed2. cbn [negative hundredths].
  rewrite !Z2N.id by apply hundredths_nonneg.
  pose proof (hundredths_nonneg x) as Hx. pose proof (hundredths_nonneg y) as Hy.
  destruct (Qle_bool 0 x) eqn:Ex, (Qle_bool 0 y) eqn:Ey; cbn [negb].
  - apply Qle_bool_iff in Ex, Ey.
    assert (Qfloor (Qabs x * 100 + (1 # 2)) <= Qfloor (Qabs y * 100 + (1 # 2))).
    { apply Qfloor_resp_le. rewrite (Qabs_pos x Ex), (Qabs_pos y Ey). lra. }
    apply hundredths_le. assumption.
  - apply Qle_bool_iff in Ex. apply Qle_bool_false in Ey. lra.
  - apply hundredths_signs; assumption.
  - apply Qle_bool_false in Ex, Ey.
    assert (Qfloor (Qabs y * 100 + (1 # 2)) <= Qfloor (Qabs x * 100 + (1 # 2))).
    { apply Qfloor_resp_le.
      rewrite (Qabs_neg x (Qlt_le_weak _ _ Ex)), (Qabs_neg y (Qlt_le_weak _ _ Ey)). lra. }
    apply hundredths_opp_le. assumption.
Qed.

Lemma share_monotone (x y : Q) : (x <= y -> x / 2800 * 100 <= y / 2800 * 100)%Q.
Proof.
  intros H. unfold Qdiv.
  apply Qmult_le_compat_r; [|discriminate].
  apply Qmult_le_compat_r; [exact H|discriminate].
Qed.

(** X11: the percentage is monotone in the calories consumed: of two
    summaries, the one with more calories consumed never shows the smaller
    percentage. *)
Theorem getSummary_percentage_monotone
        tza1 nid1 user1 date1 st1 r1 st1' tza2 nid2 user2 date2 st2 r2 st2' :
  getSummary tza1 nid1 user1 date1 st1 = (Json 200 r1, st1') ->
  getSummary tza2 nid2 user2 date2 st2 = (Json 200 r2, st2') ->
  (response_daily_consumed r1 <= response_daily_consumed r2)%Q ->
  (value (response_percentage r1) <= value (response_percentage r2))%Q.
Proof.
  intros H1 H2.
  destruct (SummaryFacts.getSummary_ok _ _ _ _ _ _ _ H1) as (d1 & i1 & _ & _ & Hr1 & _).
  destruct (SummaryFacts.getSummary_ok _ _ _ _ _ _ _ H2) as (d2 & i2 & _ & _ & Hr2 & _).
  cbn zeta in Hr1, Hr2. subst r1 r2.
  cbn [response_daily_consumed response_percentage daily_consumed percentage].
  intros Hle. apply toFixed2_monotone, share_monotone. exact Hle.
Qed.

(** 171 kcal and 1300 kcal: 6.11 percent and 46.43 percent. *)
Lemma getSummary_percentage_monotone_witness :
  exists r1 st1 r2 st2,
    getSummary 0 500%N Samples.user Samples.sep12
               (Samples.storeOf [Samples.entryAt 1%N 171 (Samples.sep12 + Samples.hours 9)])
    = (Json 200 r1, st1) /\
    getSummary 0 500%N Samples.user Samples.sep12
               (Samples.storeOf [Samples.entryAt 1%N 1300 (Samples.sep12 + Samples.hours 9)])
    = (Json 200 r2, st2) /\
    render (response_percentage r1) = "6.11"%string /\
    render (response_percentage r2) = "46.43"%string /\
    (value (response_percentage r1) <= value (response_percentage r2))%Q.
Proof.
  pose proof (getSummary_percentage_monotone
                0 500%N Samples.user Samples.sep12
                (Samples.storeOf [Samples.entryAt 1%N 171 (Samples.sep12 + Samples.hours 9)])
                _ _
                0 500%N Samples.user Samples.sep12
                (Samples.storeOf [Samples.entryAt 1%N 1300 (Samples.sep12 + Samples.hours 9)])
                _ _ eq_refl eq_refl ltac:(vm_compute; discriminate)) as Hmono.
  do 4 eexists. split; [reflexivity|]. split; [reflexivity|].
  split; [vm_compute; reflexivity|]. split; [vm_compute; reflexivity|exact Hmono].
Defined.

Lemma sumBy_nonneg {A} (g : A -> Q) l :
  (forall x, In x l -> (0 <= g x)%Q) -> (0 <= sumBy g l)%Q.
Proof.
  induction l as [|x l IH]; intros H; [unfold sumBy; cbn; lra|].
  rewrite SummaryFacts.sumBy_cons.
  pose proof (H x (or_introl eq_refl)).
  assert (0 <= sumBy g l)%Q by (apply IH; intros y Hy; apply H; right; exact Hy).
  lra.
Qed.

(** X12: when no entry of the store has negative calories, a summary shows
    nothing negative consumed, at most the daily rate left and a percentage
    that is not negative; and when no more than the daily rate was consumed,
    a percentage of at most 100. *)
Theorem getSummary_within_bounds tza nid user inputDate st r st' :
  (forall d e, In d (Diaries st) -> In e (entries d) -> (0 <= product_Calories e)%Q) ->
  getSummary tza nid user inputDate st = (Json 200 r, st') ->
  (0 <= response_daily_consumed r)%Q /\
  (response_daily_left r <= response_daily_rate r)%Q /\
  (0 <= value (response_percentage r))%Q /\
  ((response_daily_consumed r <= response_daily_rate r)%Q ->
   (0 <= response_daily_left r)%Q /\ (value (response_percentage r) <= 100)%Q).
Proof.
  intros Hpos H.
  destruct (SummaryFacts.getSummary_ok _ _ _ _ _ _ _ H) as (d & i & Hd & _ & Hr & _).
  apply findDiaryBetween_found_summary in Hd.
  cbn zeta in Hr. subst r.
  cbn [response_daily_consumed response_daily_left response_daily_rate
       response_percentage daily_consumed daily_left daily_rate percentage].
  set (total := sumBy product_Calories (entries d)).
  assert (Htotal : (0 <= total)%Q)
    by (apply sumBy_nonneg; intros e He; exact (Hpos d e Hd He)).
  split; [exact Htotal|]. split; [lra|]. split.
  - apply (Qle_trans _ (value (toFixed2 (0 / 2800 * 100)%Q))); [vm_compute; discriminate|].
    apply toFixed2_monotone, share_monotone. exact Htotal.
  - intros Hbudget. split; [lra|].
    apply (Qle_trans _ (value (toFixed2 (2800 / 2800 * 100)%Q))); [|vm_compute; discriminate].
    apply toFixed2_monotone, share_monotone. exact Hbudget.
Qed.

Lemma getSummary_within_bounds_witness :
  exists r st',
    getSummary 0 500%N Samples.user Samples.sep12 (Samples.storeOf Samples.sep11AndSep12)
    = (Json 200 r, st') /\
    (0 <= value (response_percentage r))%Q /\ (value (response_percentage r) <= 100)%Q.
Proof.
  destruct (getSummary_within_bounds
              0 500%N Samples.user Samples.sep12 (Samples.storeOf Samples.sep11AndSep12) _ _
              ltac:(intros d e [<-|[]] [<-|[<-|[]]]; vm_compute; discriminate) eq_refl)
    as (_ & _ & Hlo & Hhi).
  do 2 eexists. split; [reflexivity|]. split; [exact Hlo|].
  apply Hhi. vm_compute. discriminate.
Defined.

Lemma find_all_false {A} (f : A -> bool) l :
  (forall x, In x l -> f x = false) -> List.find f l = None.
Proof.
  induction l as [|x l IH]; intros H; [reflexivity|]. cbn.
  rewrite (H x (or_introl eq_refl)). apply IH. intros y Hy. apply H. right. exact Hy.
Qed.

(** X13: a user without a diary, or whose diaries hold no entry, gets 404
    from [GET /summary/:date] for every date and timezone, and nothing is
    stored: no summary of zero calories is made. *)
Theorem getSummary_empty_diary tza nid user inputDate st :
  (forall d, In d (Diaries st) -> diary_userId d = user -> entries d = []) ->
  getSummary tza nid user inputDate st
  = (Message 404 "No diary entry found for this date.", st).
Proof.
  intros Hempty. apply SummaryFacts.getSummary_not_found.
  unfold findDiaryBetween, findOne. apply find_all_false. intros d Hd.
  destruct (N.eqb (diary_userId d) user) eqn:E; [|reflexivity].
  apply N.eqb_eq in E. unfold entriesDateBetween. rewrite (Hempty d Hd E). reflexivity.
Qed.

(** A diary that holds no entry. *)
Lemma getSummary_empty_diary_witness :
  getSummary 0 500%N Samples.user Samples.sep12 (Samples.storeOf [])
  = (Message 404 "No diary entry found for this date.", Samples.storeOf []).
Proof.
  apply getSummary_empty_diary. intros d [<-|[]] _. reflexivity.
Defined.

(** X14: the first successful summary of a user creates the user's history
    with one record: the diary's id and the four numbers of the response. *)
Theorem getSummary_first_record tza nid user inputDate st r st' :
  findOne (fun s => N.eqb (summary_userId s) user) (Summaries st) = None ->
  getSummary tza nid user inputDate st = (Json 200 r, st') ->
  exists d,
    findDiaryBetween user (startOfDay tza inputDate) (endOfDay tza inputDate) st
    = Some d /\
    Stated.history user st'
    = [{| diaryId := diary_id d;
          daily_left := response_daily_left r;
          daily_consumed := response_daily_consumed r;
          daily_rate := response_daily_rate r;
          percentage := response_percentage r |}] /\
    Diaries st' = Diaries st.
Proof.
  intros Hnone H.
  destruct (SummaryFacts.getSummary_ok _ _ _ _ _ _ _ H) as (d & i & Hd & Hi & Hr & Hst).
  exists d. split; [exact Hd|]. cbn zeta in Hr, Hst.
  assert (Hload : loadedSummary nid user st
                  = {| summary_id := nid; summary_userId := user; summaryInfo := [] |})
    by (unfold loadedSummary; rewrite Hnone; reflexivity).
  rewrite Hload in Hi, Hst. cbn [summaryInfo summary_id summary_userId] in Hi, Hst.
  cbn in Hi. injection Hi as <-.
  subst r st'. cbn [Diaries setSummaries]. split; [|reflexivity].
  unfold Stated.history, loadedSummary. cbn [Summaries setSummaries].
  unfold findOne. rewrite (find_save_same summary_id _ _ (Summaries st)).
  - reflexivity.
  - cbn [summary_userId]. apply N.eqb_refl.
  - unfold findOne in Hnone. rewrite Hnone. exact I.
Qed.

Lemma getSummary_first_record_witness :
  exists r st',
    getSummary 0 500%N Samples.user Samples.sep12 (Samples.storeOf Samples.sep11AndSep12)
    = (Json 200 r, st') /\
    List.length (Stated.history Samples.user st') = 1%nat.
Proof.
  destruct (getSummary_first_record
              0 500%N Samples.user Samples.sep12 (Samples.storeOf Samples.sep11AndSep12)
              _ _ eq_refl eq_refl) as (d & _ & Hhistory & _).
  do 2 eexists. split; [reflexivity|].
  refine (eq_trans (f_equal (@List.length _) Hhistory) _). reflexivity.
Defined.

End SummaryMore.

(** ** More on the recommendations *)

Module RecommendationMore.
Import Recommendations StoreFacts.

Lemma missingField_false body :
  missingField body = false ->
  exists h a cw dw bt,
    body_height body = Some h /\ body_age body = Some a /\
    body_current_weight body = Some cw /\ body_desired_weight body = Some dw /\
    body_blood_type body = Some bt.
Proof.
  unfold missingField. intros H.
  repeat (apply orb_false_elim in H as [H ?]).
  destruct (body_height body) as [h|]; [|discriminate].
  destruct (body_age body) as [a|]; [|discriminate].
  destruct (body_current_weight body) as [cw|]; [|discriminate].
  destruct (body_desired_weight body) as [dw|]; [|discriminate].
  destruct (body_blood_type body) as [bt|]; [|discriminate].
  exists h, a, cw, dw, bt. repeat split; reflexivity.
Qed.

(** X15: a request with a field missing (or zero, or an empty blood type) or
    with a blood type that is not one of the four codes is answered 400 by
    both routes, and the private route stores no profile for it. *)
Theorem recommendations_reject localeCompare newId user body st :
  (missingField body = true \/
   exists bt, body_blood_type body = Some bt /\
              ~ In bt ["0(I)"; "A(II)"; "B(III)"; "AB(IV)"]%string) ->
  InvalidInput (publicRecommendations localeCompare body st) /\
  InvalidInput (fst (privateRecommendations localeCompare newId user body st)) /\
  snd (privateRecommendations localeCompare newId user body st) = st.
Proof.
  intros H. unfold publicRecommendations, privateRecommendations.
  destruct (missingField body) eqn:Em; [repeat split; reflexivity|].
  destruct H as [H|(bt & Hbt & Hbad)]; [discriminate|].
  destruct (missingField_false body Em) as (h & a & cw & dw & bt' & -> & -> & -> & -> & Hbt').
  rewrite Hbt' in Hbt |- *. injection Hbt as ->.
  rewrite (RecommendationFacts.getBloodTypeIndex_invalid bt Hbad). repeat split; reflexivity.
Qed.

Lemma recommendations_reject_witness :
  InvalidInput (publicRecommendations codeUnitCompare
                  {| body_height := Some 170%Q; body_age := Some 30%Q;
                     body_current_weight := Some 80%Q; body_desired_weight := Some 70%Q;
                     body_blood_type := Some "A"%string |} Samples.sixProducts) /\
  InvalidInput (fst (privateRecommendations codeUnitCompare 700%N Samples.user
                  {| body_height := Some 170%Q; body_age := Some 0%Q;
                     body_current_weight := Some 80%Q; body_desired_weight := Some 70%Q;
                     body_blood_type := Some "A(II)"%string |} Samples.sixProducts)).
Proof.
  split.
  - apply (recommendations_reject codeUnitCompare 700%N Samples.user).
    right. exists "A"%string. split; [reflexivity|].
    intros [H|[H|[H|[H|[]]]]]; discriminate H.
  - apply (recommendations_reject codeUnitCompare 700%N Samples.user).
    left. reflexivity.
Defined.

Lemma save_length_replace {A} (id : A -> ObjectId) doc coll :
  In (id doc) (List.map id coll) ->
  List.length (save id doc coll) = List.length coll.
Proof.
  induction coll as [|x coll IH]; intros Hin; [destruct Hin|]. cbn.
  destruct (N.eqb (id x) (id doc)) eqn:E; [reflexivity|]. cbn.
  destruct Hin as [Hx|Hin]; [apply N.eqb_neq in E; contradiction|].
  rewrite (IH Hin). reflexivity.
Qed.

(** X16: a successful [POST /private-recommendations] leaves the user with a
    Calculator document whose data is the one profile of the request; when
    the user had a document before, it is that document rewritten, and the
    collection has as many documents as before. *)
Theorem privateRecommendations_one_profile localeCompare newId user body st r st' :
  privateRecommendations localeCompare newId user body st = (Json 200 r, st') ->
  exists h a cw dw bt c,
    body_height body = Some h /\ body_age body = Some a /\
    body_current_weight body = Some cw /\ body_desired_weight body = Some dw /\
    body_blood_type body = Some bt /\
    findOne (fun c => N.eqb (calculator_userId c) user) (Calculators st') = Some c /\
    data c = [Invariants.profileOf h a cw dw bt] /\
    (forall c0,
        findOne (fun c => N.eqb (calculator_userId c) user) (Calculators st) = Some c0 ->
        calculator_id c = calculator_id c0 /\
        List.length (Calculators st') = List.length (Calculators st)).
Proof.
  unfold privateRecommendations.
  destruct (missingField body) eqn:Em; [discriminate|].
  destruct (missingField_false body Em) as (h & a & cw & dw & bt & -> & -> & -> & -> & ->).
  destruct (_ =? -1); [discriminate|].
  unfold findOne.
  destruct (List.find (fun c => N.eqb (calculator_userId c) user) (Calculators st))
    as [c0|] eqn:E; intros H; injection H as _ <-;
    exists h, a, cw, dw, bt; eexists;
    repeat (split; [reflexivity|]); cbn [Calculators setCalculators].
  - pose proof (find_some _ _ E) as [Hin Hu]. split; [|split].
    + apply find_save_same; [exact Hu|]. rewrite E. reflexivity.
    + reflexivity.
    + intros c1 H1. injection H1 as <-. split; [reflexivity|].
      apply save_length_replace. cbn [calculator_id]. apply in_map. exact Hin.
  - split; [|split].
    + apply find_save_same; [cbn; apply N.eqb_refl|]. rewrite E. exact I.
    + reflexivity.
    + intros c1 H1. discriminate H1.
Qed.

(** Two requests of one user: one document, with the second profile. *)
Lemma privateRecommendations_one_profile_witness :
  let st1 := snd (privateRecommendations codeUnitCompare 700%N Samples.user
                    Samples.profileA Samples.sixProducts) in
  let second := {| body_height := Some 171%Q; body_age := Some 31%Q;
                   body_current_weight := Some 75%Q; body_desired_weight := Some 70%Q;
                   body_blood_type := Some "B(III)"%string |} in
  Calculators (snd (privateRecommendations codeUnitCompare 701%N Samples.user second st1))
  = [{| calculator_id := 700%N; calculator_userId := Samples.user;
        data := [Invariants.profileOf 171 31 75 70 "B(III)"] |}].
Proof.
  cbn zeta.
  destruct (privateRecommendations_one_profile
              codeUnitCompare 701%N Samples.user
              {| body_height := Some 171%Q; body_age := Some 31%Q;
                 body_current_weight := Some 75%Q; body_desired_weight := Some 70%Q;
                 body_blood_type := Some "B(III)"%string |}
              (snd (privateRecommendations codeUnitCompare 700%N Samples.user
                      Samples.profileA Samples.sixProducts))
              _ _ eq_refl) as (h & a & cw & dw & bt & c & _).
  reflexivity.
Defined.

(** X17: every product a recommendation lists is a product of the catalog
    whose restriction array holds [true] at the index of the blood type; and
    when the catalog has at most four such products, the recommendation
    lists each of them. *)
Theorem publicRecommendations_sound_and_complete localeCompare body st r :
  publicRecommendations localeCompare body st = Json 200 r ->
  exists bt,
    body_blood_type body = Some bt /\
    (forall p, In p (forbiddenProducts r) ->
               In p (Products st) /\
               groupBloodNotAllowed p !! Z.to_nat (getBloodTypeIndex bt)
               = Some (Some true)) /\
    ((List.length (List.filter (notAllowed (getBloodTypeIndex bt)) (Products st)) <= 4)%nat ->
     forall p, In p (Products st) -> notAllowed (getBloodTypeIndex bt) p = true ->
               In p (forbiddenProducts r)).
Proof.
  unfold publicRecommendations.
  destruct (missingField body); [discriminate|].
  destruct (body_blood_type body) as [bt|]; [|discriminate].
  destruct (_ =? -1); [discriminate|].
  intros H. injection H as <-. exists bt. split; [reflexivity|].
  unfold recommendation, forbidden. cbn [forbiddenProducts].
  set (flagged := List.filter (notAllowed (getBloodTypeIndex bt)) (Products st)).
  pose proof (RecommendationFacts.sort_Permutation localeCompare (take 4 flagged)) as Hperm.
  split.
  - intros p Hp. apply (Permutation_in _ Hperm) in Hp.
    assert (Hf : In p flagged).
    { apply list_elem_of_In. apply list_elem_of_In in Hp.
      exact (subseteq_take _ _ _ Hp). }
    apply filter_In in Hf as [Hin Hflag]. split; [exact Hin|].
    unfold notAllowed in Hflag.
    destruct (groupBloodNotAllowed p !! Z.to_nat (getBloodTypeIndex bt))
      as [[[|]|]|]; try discriminate. reflexivity.
  - intros Hfew p Hin Hflag. apply (Permutation_in _ (Permutation_sym Hperm)).
    rewrite take_ge by exact Hfew. apply filter_In. split; assumption.
Qed.

Lemma publicRecommendations_sound_and_complete_witness :
  exists r,
    publicRecommendations codeUnitCompare Samples.profileA Samples.sixProducts = Json 200 r /\
    forall p, In p (forbiddenProducts r) ->
              In p (Products Samples.sixProducts) /\
              groupBloodNotAllowed p !! 1%nat = Some (Some true).
Proof.
  destruct (publicRecommendations_sound_and_complete
              codeUnitCompare Samples.profileA Samples.sixProducts _ eq_refl)
    as (bt & Hbt & Hsound & _).
  injection Hbt as <-. eexists. split; [reflexivity|exact Hsound].
Defined.

End RecommendationMore.

(** ** The authentication routes *)

Module AuthFacts.
Import AuthRoutes StoreFacts.

Lemma findByEmail_found e users u :
  findByEmail e users = Some u -> In u users /\ email u = e.
Proof.
  unfold findByEmail, findOne. intros H. apply find_some in H as [Hin He].
  split; [exact Hin|]. apply String.eqb_eq. exact He.
Qed.

Lemma findByEmail_none e users :
  findByEmail e users = None -> ~ In e (List.map email users).
Proof.
  unfold findByEmail, findOne. intros H Hin.
  apply in_map_iff in Hin as (u & Hu & Hin).
  pose proof (find_none _ _ H u Hin) as Hf. cbn in Hf.
  apply String.eqb_neq in Hf. contradiction.
Qed.

(** A stored document saved again, among documents with distinct [_id]s,
    leaves the collection as it was. *)
Lemma save_stored {A} (id : A -> ObjectId) doc coll :
  NoDup (List.map id coll) -> In doc coll -> save id doc coll = coll.
Proof.
  induction coll as [|x coll IH]; intros Hnd Hin; [destruct Hin|].
  cbn [List.map] in Hnd. apply NoDup_cons in Hnd as [Hx Hnd]. cbn [save].
  destruct (N.eqb (id x) (id doc)) eqn:E.
  - apply N.eqb_eq in E. destruct Hin as [->|Hin]; [reflexivity|].
    exfalso. apply Hx. apply list_elem_of_In. rewrite E. apply in_map. exact Hin.
  - destruct Hin as [->|Hin]; [apply N.eqb_neq in E; contradiction|].
    rewrite (IH Hnd Hin). reflexivity.
Qed.

(** Of two saves of versions of one document the second decides. *)
Lemma save_save {A} (id : A -> ObjectId) d1 d2 coll :
  id d1 = id d2 -> save id d2 (save id d1 coll) = save id d2 coll.
Proof.
  intros Hid. induction coll as [|x coll IH]; cbn [save].
  - rewrite Hid, N.eqb_refl. reflexivity.
  - destruct (N.eqb (id x) (id d1)) eqn:E; cbn [save]; rewrite Hid in E.
    + rewrite Hid, N.eqb_refl, E. reflexivity.
    + rewrite E, IH. reflexivity.
Qed.

Section UserModel.

Variable storedPassword : string -> string.
Variable isValidPassword : User -> string -> bool.
Variable sign : ObjectId -> string.

(** X18: an email address registers once.  After a successful registration
    every further registration with that address is answered 409 and adds
    no user, whatever the name, the password and the id offered. *)
Theorem register_twice newId body users r users' newId' body' :
  register storedPassword newId body users = (Json 201 r, users') ->
  register_email body' = register_email body ->
  register storedPassword newId' body' users'
  = (Message 409 "Email already registered!", users').
Proof.
  unfold register at 1.
  destruct (findByEmail (register_email body) users) eqn:E; [discriminate|].
  intros H Hsame. injection H as _ <-. unfold register.
  rewrite Hsame. unfold findByEmail, findOne.
  rewrite (find_save_same user_id _ _ users).
  - reflexivity.
  - cbn [email]. apply String.eqb_eq. reflexivity.
  - unfold findByEmail, findOne in E. rewrite E. exact I.
Qed.

(** X19: registration keeps the users distinct: with an id that is not in
    use, the users still have distinct ids and distinct emails after
    [POST /register], whatever it answers. *)
Theorem register_keeps_users_distinct newId body users :
  Invariants.distinctUsers users ->
  ~ In newId (List.map user_id users) ->
  Invariants.distinctUsers (snd (register storedPassword newId body users)).
Proof.
  intros [Hid Hemail] Hfresh. unfold register.
  destruct (findByEmail (register_email body) users) eqn:E; [split; assumption|].
  cbn [snd]. rewrite save_fresh by exact Hfresh.
  unfold Invariants.distinctUsers. rewrite !map_app. cbn [List.map user_id email].
  split; apply NoDup_app; (split; [assumption|]); (split; [|apply NoDup_singleton]).
  - intros x Hx Hx'. apply list_elem_of_singleton in Hx'. subst x.
    apply Hfresh. apply list_elem_of_In. exact Hx.
  - intros x Hx Hx'. apply list_elem_of_singleton in Hx'. subst x.
    apply (findByEmail_none _ _ E). apply list_elem_of_In. exact Hx.
Qed.

(** X20: a login with an unknown email and a login with a wrong password get
    the same answer, 401 with one message, and change nothing. *)
Theorem login_failures_alike body users :
  (findByEmail (login_email body) users = None \/
   exists user, findByEmail (login_email body) users = Some user /\
                isValidPassword user (login_password body) = false) ->
  login isValidPassword sign body users
  = (Message 401 "Email or password is wrong", users).
Proof.
  intros [H|(user & H & Hpw)]; unfold login; rewrite H; [reflexivity|].
  rewrite Hpw. reflexivity.
Qed.

(** X21: a successful login answers with the token it stores: from then on
    the user found by the email carries the token of the response, and the
    name and email of the response are that user's. *)
Theorem login_stores_token body users r users' :
  login isValidPassword sign body users = (Json 200 r, users') ->
  exists user,
    findByEmail (login_email body) users = Some user /\
    isValidPassword user (login_password body) = true /\
    login_token r = sign (user_id user) /\
    login_user r = {| public_name := name user; public_email := email user |} /\
    findByEmail (login_email body) users'
    = Some (setToken (Some (login_token r)) user).
Proof.
  unfold login.
  destruct (findByEmail (login_email body) users) as [user|] eqn:E; [|discriminate].
  destruct (isValidPassword user (login_password body)) eqn:Epw; [|discriminate].
  cbn [negb]. intros H. injection H as <- <-. exists user.
  cbn [login_token login_user]. split; [reflexivity|]. split; [exact Epw|].
  repeat (split; [reflexivity|]).
  pose proof (findByEmail_found _ _ _ E) as [_ He].
  unfold findByEmail, findOne. apply find_save_same.
  - cbn [email setToken]. apply String.eqb_eq. exact He.
  - unfold findByEmail, findOne in E. rewrite E. reflexivity.
Qed.

(** X22: login, then logout.  Among users with distinct ids, logging out the
    user a login has just stored takes the token away again; when that user
    had no token before the login, the users are as they were before it. *)
Theorem login_then_logout body users r users' :
  NoDup (List.map user_id users) ->
  login isValidPassword sign body users = (Json 200 r, users') ->
  exists user,
    findByEmail (login_email body) users = Some user /\
    let loggedIn := setToken (Some (login_token r)) user in
    findByEmail (login_email body) (snd (logout loggedIn users'))
    = Some (setToken None user) /\
    (token user = None -> snd (logout loggedIn users') = users).
Proof.
  intros Hid H. pose proof H as H0. unfold login in H0.
  destruct (findByEmail (login_email body) users) as [user|] eqn:E; [|discriminate].
  destruct (isValidPassword user (login_password body)); [|discriminate].
  cbn [negb] in H0. injection H0 as <- <-. exists user. split; [reflexivity|].
  cbn zeta. cbn [login_token]. unfold logout. cbn [snd].
  pose proof (findByEmail_found _ _ _ E) as [Hin He].
  rewrite save_save by reflexivity. split.
  - unfold findByEmail, findOne. apply find_save_same.
    + cbn [email setToken]. apply String.eqb_eq. exact He.
    + unfold findByEmail, findOne in E. rewrite E. reflexivity.
  - intros Htoken.
    assert (Hsame : setToken None (setToken (Some (sign (user_id user))) user) = user)
      by (destruct user; cbn in *; subst; reflexivity).
    rewrite Hsame. apply save_stored; assumption.
Qed.

End UserModel.

Lemma register_twice_witness :
  exists r users',
    register MoreSamples.reverse 1%N MoreSamples.andrei [] = (Json 201 r, users') /\
    register MoreSamples.reverse 2%N
             {| register_name := "Andrei P.";
                register_email := "popescuandrei@example.com";
                register_password := "abcdef" |} users'
    = (Message 409 "Email already registered!", users').
Proof.
  do 2 eexists. split; [reflexivity|].
  apply (register_twice MoreSamples.reverse 1%N MoreSamples.andrei [] _ _ 2%N _ eq_refl).
  reflexivity.
Defined.

Lemma register_keeps_users_distinct_witness :
  Invariants.distinctUsers (snd (register MoreSamples.reverse 1%N MoreSamples.andrei [])).
Proof.
  apply register_keeps_users_distinct.
  - split; apply NoDup_nil_2.
  - intros [].
Defined.

Lemma login_failures_alike_witness :
  let users := snd (register MoreSamples.reverse 1%N MoreSamples.andrei []) in
  login MoreSamples.sampleValid MoreSamples.sampleSign
        {| login_email := "nobody@example.com"; login_password := "123456" |} users
  = (Message 401 "Email or password is wrong", users) /\
  login MoreSamples.sampleValid MoreSamples.sampleSign
        {| login_email := "popescuandrei@example.com"; login_password := "12345" |} users
  = (Message 401 "Email or password is wrong", users).
Proof.
  cbn zeta. split; apply login_failures_alike.
  - left. reflexivity.
  - right. eexists. split; reflexivity.
Defined.

Lemma login_stores_token_witness :
  let users := snd (register MoreSamples.reverse 1%N MoreSamples.andrei []) in
  exists r users',
    login MoreSamples.sampleValid MoreSamples.sampleSign MoreSamples.andreiLogin users
    = (Json 200 r, users') /\
    login_token r = "jwt.000000000000000000000001"%string /\
    option_map token (findByEmail "popescuandrei@example.com" users')
    = Some (Some "jwt.000000000000000000000001"%string).
Proof.
  cbn zeta.
  destruct (login_stores_token
              MoreSamples.sampleValid MoreSamples.sampleSign MoreSamples.andreiLogin
              (snd (register MoreSamples.reverse 1%N MoreSamples.andrei [])) _ _ eq_refl)
    as (user & _ & _ & _ & _ & Hfound).
  do 2 eexists. split; [reflexivity|]. split; [reflexivity|].
  refine (eq_trans (f_equal (option_map token) Hfound) _). reflexivity.
Defined.

Lemma login_then_logout_witness :
  let users := snd (register MoreSamples.reverse 1%N MoreSamples.andrei []) in
  exists r users' user,
    login MoreSamples.sampleValid MoreSamples.sampleSign MoreSamples.andreiLogin users
    = (Json 200 r, users') /\
    users' <> users /\
    snd (logout (setToken (Some (login_token r)) user) users') = users.
Proof.
  cbn zeta.
  destruct (login_then_logout
              MoreSamples.sampleValid MoreSamples.sampleSign MoreSamples.andreiLogin
              (snd (register MoreSamples.reverse 1%N MoreSamples.andrei [])) _ _
              ltac:(cbn; apply NoDup_singleton) eq_refl)
    as (user & Hfound & _ & Hback).
  do 2 eexists. exists user. split; [reflexivity|]. split; [discriminate|].
  apply Hback. vm_compute in Hfound. injection Hfound as <-. reflexivity.
Defined.

End AuthFacts.
